(** * Community platform: message-send handler and research update form

    A shallow embedding of two source files of the platform:

    - the server-side [action] of the message route, with its helpers
      [validateRequest] and [getTenantSettings];
    - the client-side [ResearchUpdateForm] component: the derived number of
      image inputs and the submit handler.

    The handler talks to a database client and to an email provider.  Both
    are modelled as an explicit world (tables and a chronological trace of
    the calls made) that is threaded through a small monad with early
    [return] and [throw], the two ways the source leaves the [try] block. *)

From Stdlib Require Import String List ZArith Bool Lia.
Import ListNotations.

Local Open Scope string_scope.
Local Open Scope Z_scope.

(** ** JavaScript values used by the sources *)

Module Js.

(** Truthiness of a string: only the empty string is falsy. *)
Definition truthy_string (s : string) : bool :=
  negb (String.eqb s "").

(** Truthiness of a possibly null/undefined string. *)
Definition truthy (v : option string) : bool :=
  match v with
  | Some s => truthy_string s
  | None => false
  end.

(** Truthiness of a possibly undefined boolean. *)
Definition truthy_bool (v : option bool) : bool :=
  match v with
  | Some b => b
  | None => false
  end.

(** [v || d] where [v] is a string or null/undefined and [d] a string. *)
Definition or_else (v : option string) (d : string) : string :=
  match v with
  | Some s => if truthy_string s then s else d
  | None => d
  end.

(** [o?.f]: optional chaining into a nullable field. *)
Definition opt_chain {A B : Type} (o : option A) (f : A -> option B)
  : option B :=
  match o with
  | Some a => f a
  | None => None
  end.

(** [Array.prototype.at(0)] and [a[0]]: undefined on an empty array. *)
Definition at0 {A : Type} (l : list A) : option A :=
  match l with
  | x :: _ => Some x
  | [] => None
  end.

(** Errors that reach the [catch] block of the handler. *)
Inductive Error : Type :=
| TypeError (what : string)
| PostgrestError (message : string).

End Js.

(** ** Data model of the message route *)

(** [FormData] restricted to text fields: the handler casts every entry it
    reads to [string]. *)
Definition FormData := list (string * string).

Fixpoint formData_get (name : string) (fd : FormData) : option string :=
  match fd with
  | [] => None
  | (k, v) :: rest => if String.eqb k name then Some v else formData_get name rest
  end.

Definition formData_has (name : string) (fd : FormData) : bool :=
  match formData_get name fd with
  | Some _ => true
  | None => false
  end.

(** The incoming request: its method and its body; [None] is a body that
    [request.formData()] cannot parse. *)
Record Request := {
  method : string;
  body : option FormData
}.

(** The authenticated user as the handler reads it: [user.email] and
    [user.user_metadata.username]. *)
Record User := {
  email : option string;
  user_username : string
}.

(** The object [data] built from the form. *)
Record MessageData := {
  to : option string;
  message : option string;
  name : option string
}.

Record Profile := {
  profile_id : Z;
  username : string;
  auth_id : option string
}.

Record Message := {
  sender_id : Z;
  receiver_id : Z;
  message_text : option string;
  tenant_id : string;
  created_at : Z
}.

(** A row of [tenant_settings]; every column is nullable. *)
Record TenantSettingsRow := {
  site_name : option string;
  site_url : option string;
  message_sign_off : option string;
  email_from : option string;
  site_image : option string
}.

Record TenantSettings := {
  siteName : string;
  siteUrl : string;
  messageSignOff : string;
  emailFrom : string;
  siteImage : string
}.

(** ** Request validation *)

(** The object returned by [validateRequest]: a failure carries [status] and
    [statusText] and leaves [valid] undefined, a success carries only
    [valid: true]. *)
Record Validation := {
  valid : option bool;
  status : option Z;
  statusText : option string
}.

Definition invalid (st : Z) (text : string) : Validation :=
  {| valid := None; status := Some st; statusText := Some text |}.

Definition validated : Validation :=
  {| valid := Some true; status := None; statusText := None |}.

Definition validateRequest (request : Request) (user : option User)
  (data : MessageData) : Validation :=
  match user with
  | None => invalid 401 "unauthorized"
  | Some u =>
      if negb (String.eqb (method request) "POST") then
        invalid 405 "method not allowed"
      else if negb (Js.truthy (to data)) then
        invalid 400 "to is required"
      else if negb (Js.truthy (message data)) then
        invalid 400 "message is required"
      else if negb (Js.truthy (email u)) then
        invalid 400 "Unable to get messenger email address"
      else validated
  end.

(** The validation sequence as the specification words it: an ordered list
    of checks, each with the status it answers; the first failing check
    decides and the checks after it are not looked at. *)
Module ValidationSpec.

Record Check := {
  fails : Request -> option User -> MessageData -> bool;
  answer : Z * string
}.

Definition no_user : Check :=
  {| fails := fun _ user _ => match user with None => true | Some _ => false end;
     answer := (401, "unauthorized") |}.

Definition not_post : Check :=
  {| fails := fun request _ _ => negb (String.eqb (method request) "POST");
     answer := (405, "method not allowed") |}.

Definition missing_to : Check :=
  {| fails := fun _ _ data => negb (Js.truthy (to data));
     answer := (400, "to is required") |}.

Definition missing_message : Check :=
  {| fails := fun _ _ data => negb (Js.truthy (message data));
     answer := (400, "message is required") |}.

Definition no_email : Check :=
  {| fails := fun _ user _ => negb (Js.truthy (Js.opt_chain user email));
     answer := (400, "Unable to get messenger email address") |}.

Definition sequence : list Check :=
  [no_user; not_post; missing_to; missing_message; no_email].

(** Runs the checks in order and stops at the first one that fails. *)
Fixpoint first_failure (checks : list Check) (request : Request)
  (user : option User) (data : MessageData) : option (Z * string) :=
  match checks with
  | [] => None
  | c :: rest =>
      if fails c request user data then Some (answer c)
      else first_failure rest request user data
  end.

Definition validate (request : Request) (user : option User)
  (data : MessageData) : Validation :=
  match first_failure sequence request user data with
  | Some (st, text) => invalid st text
  | None => validated
  end.

End ValidationSpec.

(** ** Tenant settings *)

(** [.single()]: the row when the query yields exactly one, otherwise
    [data] is null. *)
Definition single {A : Type} (rows : list A) : option A :=
  match rows with
  | [row] => Some row
  | _ => None
  end.

(** The object literal returned by [getTenantSettings], as a function of
    the [data] the query produced. *)
Definition tenantSettingsOf (data : option TenantSettingsRow) : TenantSettings :=
  {| siteName :=
       Js.or_else (Js.opt_chain data site_name) "The Community Platform";
     siteUrl :=
       Js.or_else (Js.opt_chain data site_url)
         "https://community.preciousplastic.com";
     messageSignOff :=
       Js.or_else (Js.opt_chain data message_sign_off) "One Army";
     emailFrom :=
       Js.or_else (Js.opt_chain data email_from) "hello@onearmy.earth";
     siteImage :=
       Js.or_else (Js.opt_chain data site_image)
         "https://community.preciousplastic.com/assets/img/one-army-logo.png" |}.

(** ** The world of the handler *)

(** Props of the [ReceiverMessage] template and the arguments of
    [sendEmail]. *)
Record TemplateSettings := {
  t_siteName : string;
  t_messageSignOff : string;
  t_siteImage : string;
  t_siteUrl : string
}.

Record ReceiverMessage := {
  settings : TemplateSettings;
  text : option string;
  receiverName : option string;
  messengerEmailAddress : option string;
  messengerName : option string;
  messengerUsername : string
}.

Record Email := {
  email_sender : string;
  email_recipient : string;
  subject : string;
  emailTemplate : ReceiverMessage
}.

(** The payload of [client.from('messages').insert(...)]. *)
Record MessageInsert := {
  ins_sender_id : Z;
  ins_receiver_id : Z;
  ins_message : option string;
  ins_tenant_id : string
}.

(** Result of the [count: 'exact'] query. *)
Record CountResult := {
  count : option Z;
  count_error : option string
}.

(** Every call the handler makes to a collaborator, in the order made. *)
Inductive Event : Type :=
| GetUser
| SelectProfile (by_username : option string)
| CountMessages (sender : Z) (since : Z)
| SelectTenantSettings
| InsertMessage (row : MessageInsert)
| RpcEmailById (id : option string)
| RpcEmailByUsername (by_username : option string)
| SendEmail (mail : Email)
| ConsoleError (e : Js.Error).

(** The mutable part: the three tables the handler reads or writes and the
    trace of calls. *)
Record World := {
  profiles : list Profile;
  messages : list Message;
  tenant_settings : list TenantSettingsRow;
  trace : list Event
}.

(** The part the handler only reads: the session, the clock, the process
    environment, and the answers of the collaborators whose code is not in
    the repository sources at hand (database errors, the two email lookup
    procedures, the email provider). *)
Record Env := {
  session_user : option User;
  Date_now : Z;
  TENANT_ID : string;
  insert_latency : N;
  count_failure : option string;
  insert_failure : option string;
  get_user_email_by_id : option string -> option (list string);
  get_user_email_by_username : option string -> option (list string);
  sendEmail_error : Email -> option string
}.

Inductive Body : Type :=
| body_empty
| body_null
| body_error (e : option string)
| body_error_thrown (e : Js.Error).

Record Response := {
  response_body : Body;
  response_status : Z;
  response_statusText : string;
  response_headers : bool
}.

(** The response object built from a body and an [init]: the status
    defaults to 200 and the status text to the empty string. *)
Definition new_Response (b : Body) (st : option Z) (txt : option string)
  (headers : bool) : Response :=
  {| response_body := b;
     response_status := match st with Some s => s | None => 200 end;
     response_statusText := match txt with Some t => t | None => "" end;
     response_headers := headers |}.

(** The check the platform makes on [init.statusText]: every character is
    a tab, a space, a visible ASCII character or a character from U+0080
    to U+00FF.  Strings hold UTF-8 text, in which the last are the two-byte
    sequences led by C2 or C3; any other byte (a control character such as
    a line feed, or part of a character above U+00FF) is refused. *)
Fixpoint isValidReasonPhrase (s : string) : bool :=
  match s with
  | EmptyString => true
  | String c rest =>
      let n := Ascii.N_of_ascii c in
      if ((n =? 9) || ((32 <=? n) && (n <=? 126)))%N then
        isValidReasonPhrase rest
      else if ((n =? 194) || (n =? 195))%N then
        match rest with
        | String d rest' =>
            let m := Ascii.N_of_ascii d in
            ((128 <=? m) && (m <=? 191))%N && isValidReasonPhrase rest'
        | EmptyString => false
        end
      else false
  end.

(** An absent status text is not checked. *)
Definition statusText_ok (txt : option string) : bool :=
  match txt with
  | Some t => isValidReasonPhrase t
  | None => true
  end.

(** ** The handler monad: world passing with [return] and [throw] *)

Inductive Outcome (A : Type) : Type :=
| Value (a : A)
| Return (r : Response)
| Throw (e : Js.Error).

Arguments Value {A} a.
Arguments Return {A} r.
Arguments Throw {A} e.

Definition Handler (A : Type) : Type := World -> Outcome A * World.

Definition ret {A : Type} (a : A) : Handler A := fun w => (Value a, w).

Definition bind {A B : Type} (c : Handler A) (k : A -> Handler B) : Handler B :=
  fun w =>
    match c w with
    | (Value a, w') => k a w'
    | (Return r, w') => (Return r, w')
    | (Throw e, w') => (Throw e, w')
    end.

Definition return_ {A : Type} (r : Response) : Handler A :=
  fun w => (Return r, w).

Definition throw {A : Type} (e : Js.Error) : Handler A :=
  fun w => (Throw e, w).

Declare Scope handler_scope.
Delimit Scope handler_scope with handler.
Notation "x <- c ;; k" := (bind c (fun x => k))
  (at level 61, c at next level, right associativity) : handler_scope.
Notation "c ;; k" := (bind c (fun _ => k))
  (at level 61, right associativity) : handler_scope.
Local Open Scope handler_scope.

Definition emit (e : Event) : Handler unit :=
  fun w =>
    (Value tt,
     {| profiles := profiles w; messages := messages w;
        tenant_settings := tenant_settings w; trace := trace w ++ [e] |}).

(** Dereferencing a value that may be null or undefined. *)
Definition non_null {A : Type} (what : string) (v : option A) : Handler A :=
  match v with
  | Some a => ret a
  | None => throw (Js.TypeError what)
  end.

(** [Response.json(body, init)]: throws a [TypeError] when the status text
    is not a valid reason phrase.  Every status the handler passes is a
    literal between 200 and 599, so the range check on the status never
    fires and is left out. *)
Definition Response_json (b : Body) (st : option Z) (txt : option string)
  (headers : bool) : Handler Response :=
  if statusText_ok txt then ret (new_Response b st txt headers)
  else throw (Js.TypeError "Invalid statusText").

(** [try { body } catch (error) { handler }]. *)
Definition try_catch (body : Handler Response)
  (handler : Js.Error -> Handler Response) : Handler Response :=
  fun w =>
    match body w with
    | (Throw e, w') => handler e w'
    | other => other
    end.

(** The response an [async] function resolves to. *)
Definition run (c : Handler Response) (w : World) : option Response * World :=
  match c w with
  | (Value r, w') => (Some r, w')
  | (Return r, w') => (Some r, w')
  | (Throw _, w') => (None, w')
  end.

(** ** Calls to the collaborators *)

Definition request_formData (request : Request) : Handler FormData :=
  non_null "request.formData" (body request).

Definition auth_getUser (env : Env) : Handler (option User) :=
  emit GetUser ;; ret (session_user env).

Definition eq_text (column : string) (v : option string) : bool :=
  match v with
  | Some s => String.eqb column s
  | None => false
  end.

(** The rows of [profiles] whose username equals [v]. *)
Definition profile_rows (w : World) (v : option string) : list Profile :=
  filter (fun p => eq_text (username p) v) (profiles w).

(** [client.from('profiles').select(...).eq('username', v)]. *)
Definition select_profiles (v : option string) : Handler (list Profile) :=
  emit (SelectProfile v) ;;
  fun w => (Value (profile_rows w v), w).

Definition sent_since (from since : Z) (m : Message) : bool :=
  (sender_id m =? from) && (since <? created_at m).

Definition count_since (from since : Z) (rows : list Message) : Z :=
  Z.of_nat (List.length (filter (sent_since from since) rows)).

(** [client.from('messages').select('id', { count: 'exact' })
      .eq('sender_id', from).gt('created_at', since)]. *)
Definition count_messages (env : Env) (from since : Z) : Handler CountResult :=
  emit (CountMessages from since) ;;
  fun w =>
    (Value
       match count_failure env with
       | Some e => {| count := None; count_error := Some e |}
       | None =>
           {| count := Some (count_since from since (messages w));
              count_error := None |}
       end,
     w).

(** Modelled from the spec: the default of the [created_at] column is not
    part of the sources; the data model calls the creation timestamp
    server-assigned, so the stored row carries the time of the insertion,
    which is the handler's clock reading plus the time elapsed since. *)
Definition stored (env : Env) (row : MessageInsert) : Message :=
  {| sender_id := ins_sender_id row;
     receiver_id := ins_receiver_id row;
     message_text := ins_message row;
     tenant_id := ins_tenant_id row;
     created_at := Date_now env + Z.of_N (insert_latency env) |}.

(** [client.from('messages').insert(row)]; the result is its [error]. *)
Definition insert_message (env : Env) (row : MessageInsert)
  : Handler (option string) :=
  emit (InsertMessage row) ;;
  fun w =>
    match insert_failure env with
    | Some e => (Value (Some e), w)
    | None =>
        (Value None,
         {| profiles := profiles w;
            messages := messages w ++ [stored env row];
            tenant_settings := tenant_settings w;
            trace := trace w |})
    end.

Definition rpc_get_user_email_by_id (env : Env) (id : option string)
  : Handler (option (list string)) :=
  emit (RpcEmailById id) ;; ret (get_user_email_by_id env id).

Definition rpc_get_user_email_by_username (env : Env) (v : option string)
  : Handler (option (list string)) :=
  emit (RpcEmailByUsername v) ;; ret (get_user_email_by_username env v).

Definition sendEmail (env : Env) (mail : Email) : Handler (option string) :=
  emit (SendEmail mail) ;; ret (sendEmail_error env mail).

Definition console_error (e : Js.Error) : Handler unit :=
  emit (ConsoleError e).

Definition getTenantSettings : Handler TenantSettings :=
  emit SelectTenantSettings ;;
  fun w => (Value (tenantSettingsOf (single (tenant_settings w))), w).

(** ** The handler *)

Definition spam_protection_text : string :=
  "You've contacted a lot of people today! So to protect the platform from spam we haven't sent this message.".

(** [countResult.count! >= 20]; a null count compares false. *)
Definition at_least_20 (c : option Z) : bool :=
  match c with
  | Some n => 20 <=? n
  | None => false
  end.

(** The object literal [data] the handler builds from the form. *)
Definition data_of (formData : FormData) : MessageData :=
  {| to := formData_get "to" formData;
     message := formData_get "message" formData;
     name := if formData_has "name" formData
             then formData_get "name" formData else None |}.

Definition action (env : Env) (request : Request) : Handler Response :=
  try_catch
    (formData <- request_formData request ;;
     let data := data_of formData in
     user <- auth_getUser env ;;
     let v := validateRequest request user data in
     if negb (Js.truthy_bool (valid v)) then
       (response <- Response_json body_empty (status v) (statusText v) false ;;
        return_ response)
     else
       u <- non_null "user" user ;;
       userProfile <- select_profiles (Some (user_username u)) ;;
       recipientProfile <- select_profiles (to data) ;;
       sender <- non_null "userProfile.data.at(0)" (Js.at0 userProfile) ;;
       let from := profile_id sender in
       recipient <- non_null "recipientProfile.data.at(0)"
                      (Js.at0 recipientProfile) ;;
       let to_ := profile_id recipient in
       let toAuthId := auth_id recipient in
       let today := Date_now env in
       let yesterday := today - 1000 * 60 * 60 * 24 in
       countResult <- count_messages env from yesterday ;;
       match count_error countResult with
       | Some e => throw (Js.PostgrestError e)
       | None =>
           if at_least_20 (count countResult) then
             (response <- Response_json (body_error (Some "Too many requests"))
                            (Some 429) (Some spam_protection_text) false ;;
              return_ response)
           else
             settings <- getTenantSettings ;;
             messageResult <-
               insert_message env
                 {| ins_sender_id := from;
                    ins_receiver_id := to_;
                    ins_message := message data;
                    ins_tenant_id := TENANT_ID env |} ;;
             match messageResult with
             | Some e => throw (Js.PostgrestError e)
             | None =>
                 emailResult <-
                   (if Js.truthy toAuthId then
                      rpc_get_user_email_by_id env toAuthId
                    else rpc_get_user_email_by_username env (to data)) ;;
                 rows <- non_null "emailResult.data" emailResult ;;
                 let receiver := Js.at0 rows in
                 let messenger := sender in
                 let emailTemplate :=
                   {| settings :=
                        {| t_siteName := siteName settings;
                           t_messageSignOff := messageSignOff settings;
                           t_siteImage := siteImage settings;
                           t_siteUrl := siteUrl settings |};
                      text := message data;
                      receiverName := to data;
                      messengerEmailAddress := email u;
                      messengerName := name data;
                      messengerUsername := username messenger |} in
                 receiver_email <- non_null "receiver" receiver ;;
                 sendResult <-
                   sendEmail env
                     {| email_sender := emailFrom settings;
                        email_recipient := receiver_email;
                        subject :=
                          username messenger ++ " sent you a message via "
                          ++ siteName settings ++ "!";
                        emailTemplate := emailTemplate |} ;;
                 if Js.truthy sendResult then
                   (response <- Response_json (body_error sendResult)
                                  (Some 429) sendResult false ;;
                    return_ response)
                 else
                   (response <- Response_json body_null (Some 201) None true ;;
                    return_ response)
             end
       end)
    (fun error =>
       console_error error ;;
       Response_json (body_error_thrown error) (Some 500)
         (Some "Error sending message") false).

(** The messages the sender of a request has sent in the 24 hours before
    the handler's clock reading: what the count query evaluates to. *)
Definition DAY : Z := 1000 * 60 * 60 * 24.

Definition recent_count (env : Env) (w : World) (from : Z) : Z :=
  count_since from (Date_now env - DAY) (messages w).

(** A request passes validation when its body parses and [validateRequest]
    answers [valid: true] for the session's user. *)
Definition passes_validation (env : Env) (request : Request) : bool :=
  match body request with
  | Some fd =>
      Js.truthy_bool (valid (validateRequest request (session_user env) (data_of fd)))
  | None => false
  end.

(** ** The research update form *)

Module ResearchUpdateForm.

Local Open Scope nat_scope.

(** An uploaded file; an entry of [images] is a file, or null/undefined
    for an input left empty. *)
Record File := { file_name : string }.

Record ResearchUpdateFormData := {
  title : string;
  description : string;
  existingImages : option (list string);
  existingFiles : option (list string);
  fileLink : option string;
  videoUrl : string;
  files : list File;
  images : option (list (option File))
}.

(** [!!x] for an entry of [images]. *)
Definition present (x : option File) : bool :=
  match x with
  | Some _ => true
  | None => false
  end.

(** [numberOfImageInputsAvailable] of the render function; [values] may
    itself be undefined. *)
Definition numberOfImageInputsAvailable
  (values : option ResearchUpdateFormData) : nat :=
  match Js.opt_chain values images with
  | Some imgs => Nat.min (List.length (filter present imgs) + 1) 10
  | None => 1
  end.

(** The number of non-empty image entries of a form state, counted entry
    by entry. *)
Fixpoint count_present (imgs : list (option File)) : nat :=
  match imgs with
  | [] => 0
  | Some _ :: rest => S (count_present rest)
  | None :: rest => count_present rest
  end.

Definition nonEmptyImages (values : option ResearchUpdateFormData) : nat :=
  match Js.opt_chain values images with
  | Some imgs => count_present imgs
  | None => 0
  end.

(** *** Component state and the submit handler *)

Record Props := {
  research_id : Z;
  research_slug : string;
  researchUpdate_id : option Z
}.

Record State := {
  saveErrorMessage : option string;
  isSaving : bool;
  showDeleteModal : bool;
  intentionalNavigation : bool;
  initialValues : ResearchUpdateFormData
}.

(** The arguments of one [researchService.upsertUpdate] call. *)
Record UpsertCall := {
  call_research : Z;
  call_update : option Z;
  call_formData : ResearchUpdateFormData;
  call_isDraft : bool
}.

(** How the awaited call settles: resolved with a result (possibly
    undefined) carrying the update's id, or rejected with an error. *)
Inductive Settled : Type :=
| Resolved (result : option Z)
| Rejected (error_message : string).

Inductive Effect : Type :=
| FireConfetti
| NavigateAfter (ms : nat) (research_slug : string) (update_id : Z)
| LoggerError (error_message : string).

Definition setIsSaving (b : bool) (st : State) : State :=
  {| saveErrorMessage := saveErrorMessage st; isSaving := b;
     showDeleteModal := showDeleteModal st;
     intentionalNavigation := intentionalNavigation st;
     initialValues := initialValues st |}.

Definition setIntentionalNavigation (b : bool) (st : State) : State :=
  {| saveErrorMessage := saveErrorMessage st; isSaving := isSaving st;
     showDeleteModal := showDeleteModal st;
     intentionalNavigation := b;
     initialValues := initialValues st |}.

Definition setSaveErrorMessage (m : option string) (st : State) : State :=
  {| saveErrorMessage := m; isSaving := isSaving st;
     showDeleteModal := showDeleteModal st;
     intentionalNavigation := intentionalNavigation st;
     initialValues := initialValues st |}.

Definition setShowDeleteModal (b : bool) (st : State) : State :=
  {| saveErrorMessage := saveErrorMessage st; isSaving := isSaving st;
     showDeleteModal := b;
     intentionalNavigation := intentionalNavigation st;
     initialValues := initialValues st |}.

(** [const id = researchUpdate?.id || null], with [researchUpdate_id] the
    id of the update passed in, if one is: an id of 0 is falsy and becomes
    null. *)
Definition id (props : Props) : option Z :=
  match researchUpdate_id props with
  | Some i => if (i =? 0)%Z then None else Some i
  | None => None
  end.

(** [onSubmit] up to its [await]: the new state and the remote call it
    starts, if any. *)
Definition onSubmit (props : Props) (st : State)
  (formData : ResearchUpdateFormData) (isDraft : bool)
  : State * option UpsertCall :=
  if isSaving st then (st, None)
  else
    let st := setIsSaving true st in
    let st := setIntentionalNavigation true st in
    let st := setSaveErrorMessage None st in
    (st,
     Some {| call_research := research_id props;
             call_update := id props;
             call_formData := formData;
             call_isDraft := isDraft |}).

(** [onSubmit] from the point where the awaited call settles. *)
Definition onSubmit_settled (props : Props) (st : State) (isDraft : bool)
  (answer : Settled) : State * list Effect :=
  match answer with
  | Resolved result =>
      (st,
       ((if negb isDraft then [FireConfetti] else [])
        ++ match result with
           | Some id => [NavigateAfter 100 (research_slug props) id]
           | None => []
           end)%list)
  | Rejected msg =>
      let st := setSaveErrorMessage (Some msg) st in
      (setIsSaving false st, [LoggerError msg])
  end.

(** [filter((_, i) => i !== index)]. *)
Fixpoint remove_at {A : Type} (index : nat) (l : list A) : list A :=
  match l, index with
  | [], _ => []
  | _ :: rest, O => rest
  | x :: rest, S i => x :: remove_at i rest
  end.

Definition removeExistingImage (index : nat) (st : State) : State :=
  let prevState := initialValues st in
  {| saveErrorMessage := saveErrorMessage st; isSaving := isSaving st;
     showDeleteModal := showDeleteModal st;
     intentionalNavigation := intentionalNavigation st;
     initialValues :=
       {| title := title prevState;
          description := description prevState;
          existingImages :=
            match existingImages prevState with
            | Some imgs => Some (remove_at index imgs)
            | None => None
            end;
          existingFiles := existingFiles prevState;
          fileLink := fileLink prevState;
          videoUrl := videoUrl prevState;
          files := files prevState;
          images := images prevState |} |}.

(** The mounted component together with the remote calls that have been
    started and have not settled yet, and everything it has done. *)
Record Mounted := {
  ui : State;
  in_flight : list UpsertCall;
  effects : list Effect
}.

Definition emptyForm : ResearchUpdateFormData :=
  {| title := ""; description := ""; existingImages := Some [];
     existingFiles := Some []; fileLink := Some ""; videoUrl := "";
     files := []; images := Some [] |}.

(** The [useState] initial values. *)
Definition mount : Mounted :=
  {| ui := {| saveErrorMessage := None; isSaving := false;
              showDeleteModal := false; intentionalNavigation := false;
              initialValues := emptyForm |};
     in_flight := []; effects := [] |}.

(** What can happen to a mounted form: the user submits (publish or
    draft), a started call settles, the delete modal is opened or
    dismissed, an existing image is removed, the effect hook loads the
    update being edited.  Every handler runs against the state of the
    latest render. *)
Inductive step (props : Props) : Mounted -> Mounted -> Prop :=
| step_submit (m : Mounted) (formData : ResearchUpdateFormData)
    (isDraft : bool) :
    step props m
      {| ui := fst (onSubmit props (ui m) formData isDraft);
         in_flight :=
           match snd (onSubmit props (ui m) formData isDraft) with
           | Some c => (in_flight m ++ [c])%list
           | None => in_flight m
           end;
         effects := effects m |}
| step_settle (m : Mounted) (before after : list UpsertCall)
    (c : UpsertCall) (answer : Settled) :
    in_flight m = (before ++ c :: after)%list ->
    step props m
      {| ui := fst (onSubmit_settled props (ui m) (call_isDraft c) answer);
         in_flight := (before ++ after)%list;
         effects :=
           (effects m
            ++ snd (onSubmit_settled props (ui m) (call_isDraft c) answer))%list |}
| step_modal (m : Mounted) (b : bool) :
    step props m
      {| ui := setShowDeleteModal b (ui m); in_flight := in_flight m;
         effects := effects m |}
| step_remove_image (m : Mounted) (index : nat) :
    step props m
      {| ui := removeExistingImage index (ui m); in_flight := in_flight m;
         effects := effects m |}
| step_load (m : Mounted) (loaded : ResearchUpdateFormData) :
    step props m
      {| ui := {| saveErrorMessage := saveErrorMessage (ui m);
                  isSaving := isSaving (ui m);
                  showDeleteModal := showDeleteModal (ui m);
                  intentionalNavigation := intentionalNavigation (ui m);
                  initialValues := loaded |};
         in_flight := in_flight m;
         effects := effects m |}.

Inductive reachable (props : Props) : Mounted -> Prop :=
| reach_mount : reachable props mount
| reach_step (m m' : Mounted) :
    reachable props m -> step props m m' -> reachable props m'.

(** What holds of every state the mounted form can reach: at most one
    call is awaiting its answer, and while one is, the saving flag is
    set. *)
Definition guarded (m : Mounted) : Prop :=
  List.length (in_flight m) <= 1 /\
  (in_flight m <> [] -> isSaving (ui m) = true).

(** *** Sample form states *)

Definition photo (n : string) : option File := Some {| file_name := n |}.

Definition two_of_three : option ResearchUpdateFormData :=
  Some {| title := "Shredder blades"; description := ""; existingImages := None;
          existingFiles := None; fileLink := None; videoUrl := "";
          files := [];
          images := Some [photo "a.jpg"; None; photo "b.jpg"] |}.

Definition ten_filled : option ResearchUpdateFormData :=
  Some {| title := ""; description := ""; existingImages := None;
          existingFiles := None; fileLink := None; videoUrl := "";
          files := [];
          images := Some (repeat (photo "x.png") 10) |}.

Definition some_props : Props :=
  {| research_id := 7; research_slug := "shredder"; researchUpdate_id := None |}.

Definition draft_form : ResearchUpdateFormData :=
  {| title := "First tests"; description := "It works"; existingImages := Some [];
     existingFiles := Some []; fileLink := Some ""; videoUrl := "";
     files := []; images := Some [] |}.

(** The form right after a first click on publish. *)
Definition submitted_once : Mounted :=
  {| ui := fst (onSubmit some_props (ui mount) draft_form false);
     in_flight :=
       match snd (onSubmit some_props (ui mount) draft_form false) with
       | Some c => in_flight mount ++ [c]
       | None => in_flight mount
       end;
     effects := effects mount |}.

(** *** The rest of the component *)

(** [filter((_, i) => i !== index)] taken literally: the entries paired
    with their positions, those at another position kept. *)
Definition filter_other_index {A : Type} (index : nat) (l : list A) : list A :=
  map snd
    (filter (fun p => negb (Nat.eqb (fst p) index))
       (combine (seq 0 (List.length l)) l)).

(** The form values with another list of new images. *)
Definition setImages (imgs : option (list (option File)))
  (v : ResearchUpdateFormData) : ResearchUpdateFormData :=
  {| title := title v; description := description v;
     existingImages := existingImages v; existingFiles := existingFiles v;
     fileLink := fileLink v; videoUrl := videoUrl v; files := files v;
     images := imgs |}.

(** Modelled from the spec: the [ResearchUpdate] type of the shared package
    is not among the sources; the data model gives an update a title, a
    description, image attachments, an optional video URL, a draft flag and
    a soft-delete flag, and the component reads its [id]. *)
Record ResearchUpdate := {
  update_id : Z;
  update_title : string;
  update_description : string;
  update_images : option (list string);
  update_videoUrl : option string;
  update_isDraft : bool;
  update_deleted : bool
}.

(** The values the effect hook sets when an update is being edited. *)
Definition loadedValues (researchUpdate : ResearchUpdate)
  (files : option (list string)) (fileLink : option string)
  : ResearchUpdateFormData :=
  {| title := update_title researchUpdate;
     description := update_description researchUpdate;
     existingImages :=
       Some match update_images researchUpdate with
            | Some imgs => imgs
            | None => []
            end;
     existingFiles := files;
     fileLink := fileLink;
     videoUrl := Js.or_else (update_videoUrl researchUpdate) "";
     files := [];
     images := Some [] |}.

(** The [useEffect] body. *)
Definition useEffect_load (researchUpdate : option ResearchUpdate)
  (files : option (list string)) (fileLink : option string) (st : State)
  : State :=
  match researchUpdate with
  | Some ru =>
      {| saveErrorMessage := saveErrorMessage st; isSaving := isSaving st;
         showDeleteModal := showDeleteModal st;
         intentionalNavigation := intentionalNavigation st;
         initialValues := loadedValues ru files fileLink |}
  | None => st
  end.

(** [hasChanges] of the unsaved-changes dialog. *)
Definition hasChanges (dirty submitSucceeded : bool) (st : State) : bool :=
  dirty && negb submitSucceeded && negb (intentionalNavigation st).

(** [disabled] of the delete button. *)
Definition deleteDisabled (st : State) (submitting : bool) : bool :=
  isSaving st || submitting.

Inductive DeleteEffect : Type :=
| DeleteUpdate (research : Z) (update : Z)
| LocationAssign (url : string).

(** [handleDelete] up to its [await]: nothing without an update to delete;
    otherwise the modal is closed and the remote delete is started. *)
Definition handleDelete (props : Props) (st : State)
  : State * list DeleteEffect :=
  match researchUpdate_id props with
  | None => (st, [])
  | Some i =>
      (setShowDeleteModal false st, [DeleteUpdate (research_id props) i])
  end.

(** [handleDelete] from the point where the awaited delete settles: the
    page of the research is loaded once it has resolved; when it is rejected
    the function ends with that rejection and loads nothing. *)
Definition handleDelete_settled (props : Props) (resolved : bool)
  : list DeleteEffect :=
  if resolved then [LocationAssign ("/research/" ++ research_slug props)]
  else [].

(** An entry of the sidebar overview; the entry of the update being
    created has a null slug and no id. *)
Record OverviewEntry := {
  entry_title : string;
  entry_isDraft : bool;
  entry_slug : option Z;
  entry_id : option Z
}.

(** [filter(Boolean)] on a list of objects and nulls. *)
Fixpoint filter_Boolean {A : Type} (l : list (option A)) : list A :=
  match l with
  | [] => []
  | Some x :: rest => x :: filter_Boolean rest
  | None :: rest => filter_Boolean rest
  end.

Definition overview_entry (u : ResearchUpdate) : OverviewEntry :=
  {| entry_title := update_title u; entry_isDraft := update_isDraft u;
     entry_slug := Some (update_id u); entry_id := Some (update_id u) |}.

Definition draft_entry (researchTitle : string) : OverviewEntry :=
  {| entry_title := researchTitle; entry_isDraft := true;
     entry_slug := None; entry_id := None |}.

Definition getResearchUpdates (updates : list ResearchUpdate)
  (isCreating : bool) (researchTitle : string) : list OverviewEntry :=
  filter_Boolean
    (map (fun u => Some (overview_entry u))
       (filter (fun u => negb (update_deleted u)) updates)
     ++ [if isCreating then Some (draft_entry researchTitle) else None]).

(** The mounted form after the user submits. *)
Definition after_submit (props : Props) (m : Mounted)
  (formData : ResearchUpdateFormData) (isDraft : bool) : Mounted :=
  {| ui := fst (onSubmit props (ui m) formData isDraft);
     in_flight :=
       match snd (onSubmit props (ui m) formData isDraft) with
       | Some c => in_flight m ++ [c]
       | None => in_flight m
       end;
     effects := effects m |}.

(** The mounted form after the call [c], in flight between [before] and
    [after], has settled. *)
Definition after_settle (props : Props) (m : Mounted)
  (before after : list UpsertCall) (c : UpsertCall) (answer : Settled)
  : Mounted :=
  {| ui := fst (onSubmit_settled props (ui m) (call_isDraft c) answer);
     in_flight := (before ++ after)%list;
     effects :=
       (effects m
        ++ snd (onSubmit_settled props (ui m) (call_isDraft c) answer))%list |}.

(** Any number of steps. *)
Inductive steps (props : Props) : Mounted -> Mounted -> Prop :=
| steps_none (m : Mounted) : steps props m m
| steps_more (m m' m'' : Mounted) :
    steps props m m' -> step props m' m'' -> steps props m m''.

(** *** Sample updates *)

Definition first_update : ResearchUpdate :=
  {| update_id := 11; update_title := "Mould design";
     update_description := "CAD files"; update_images := Some ["mould.png"];
     update_videoUrl := None; update_isDraft := false; update_deleted := false |}.

Definition withdrawn_update : ResearchUpdate :=
  {| update_id := 12; update_title := "Failed test";
     update_description := ""; update_images := None;
     update_videoUrl := Some ""; update_isDraft := true; update_deleted := true |}.

Definition gallery_update : ResearchUpdate :=
  {| update_id := 13; update_title := "Gallery";
     update_description := "Three pictures";
     update_images := Some ["front.png"; "side.png"; "back.png"];
     update_videoUrl := Some "https://youtu.be/x"; update_isDraft := false;
     update_deleted := false |}.

Definition gallery_state : State :=
  useEffect_load (Some gallery_update) None None (ui mount).

Definition edit_props : Props :=
  {| research_id := 7; research_slug := "shredder";
     researchUpdate_id := Some 13%Z |}.

Definition failed_once : Mounted :=
  {| ui := fst (onSubmit_settled some_props (ui submitted_once) false
                  (Rejected "Network error"));
     in_flight := [];
     effects := effects submitted_once
                ++ snd (onSubmit_settled some_props (ui submitted_once) false
                          (Rejected "Network error")) |}.

End ResearchUpdateForm.

(** ** The message handler: every way a request is served *)

(** The world after some more calls, and after a stored message. *)
Definition logged (w : World) (calls : list Event) : World :=
  {| profiles := profiles w; messages := messages w;
     tenant_settings := tenant_settings w; trace := trace w ++ calls |}.

Definition posted (w : World) (m : Message) (calls : list Event) : World :=
  {| profiles := profiles w; messages := messages w ++ [m];
     tenant_settings := tenant_settings w; trace := trace w ++ calls |}.

(** The calls made between two worlds of one run. *)
Definition calls_between (w w' : World) : list Event :=
  skipn (List.length (trace w)) (trace w').

(** The responses of the handler. *)
Definition invalid_response (v : Validation) : Response :=
  new_Response body_empty (status v) (statusText v) false.

Definition error_response (e : Js.Error) : Response :=
  new_Response (body_error_thrown e) (Some 500)
    (Some "Error sending message") false.

Definition rate_limit_response : Response :=
  new_Response (body_error (Some "Too many requests")) (Some 429)
    (Some spam_protection_text) false.

Definition provider_error_response (err : option string) : Response :=
  new_Response (body_error err) (Some 429) err false.

Definition created_response : Response :=
  new_Response body_null (Some 201) None true.

(** The row the handler inserts and the email it composes. *)
Definition row_of (env : Env) (fd : FormData) (s r : Profile) : MessageInsert :=
  {| ins_sender_id := profile_id s;
     ins_receiver_id := profile_id r;
     ins_message := message (data_of fd);
     ins_tenant_id := TENANT_ID env |}.

Definition mail_of (w : World) (fd : FormData) (u : User) (s : Profile)
  (address : string) : Email :=
  let settings := tenantSettingsOf (single (tenant_settings w)) in
  {| email_sender := emailFrom settings;
     email_recipient := address;
     subject :=
       username s ++ " sent you a message via " ++ siteName settings ++ "!";
     emailTemplate :=
       {| settings :=
            {| t_siteName := siteName settings;
               t_messageSignOff := messageSignOff settings;
               t_siteImage := siteImage settings;
               t_siteUrl := siteUrl settings |};
          text := message (data_of fd);
          receiverName := to (data_of fd);
          messengerEmailAddress := email u;
          messengerName := name (data_of fd);
          messengerUsername := username s |} |}.

(** The lookup of the recipient's email: by [auth_id] when the profile has
    one, by username otherwise. *)
Definition email_lookup (env : Env) (fd : FormData) (r : Profile)
  : option (list string) :=
  if Js.truthy (auth_id r) then get_user_email_by_id env (auth_id r)
  else get_user_email_by_username env (to (data_of fd)).

Definition email_lookup_call (fd : FormData) (r : Profile) : Event :=
  if Js.truthy (auth_id r) then RpcEmailById (auth_id r)
  else RpcEmailByUsername (to (data_of fd)).

(** The calls every validated request starts with. *)
Definition lookups (fd : FormData) (u : User) : list Event :=
  [GetUser; SelectProfile (Some (user_username u));
   SelectProfile (to (data_of fd))].

Definition counted (env : Env) (fd : FormData) (u : User) (s : Profile)
  : list Event :=
  lookups fd u ++ [CountMessages (profile_id s) (Date_now env - DAY)].

Definition inserted (env : Env) (fd : FormData) (u : User) (s r : Profile)
  : list Event :=
  counted env fd u s ++ [SelectTenantSettings; InsertMessage (row_of env fd s r)].

(** A request whose body parses, whose session has a user and which
    [validateRequest] accepts. *)
Definition accepted (env : Env) (request : Request) (fd : FormData) (u : User)
  : Prop :=
  body request = Some fd /\ session_user env = Some u /\
  validateRequest request (Some u) (data_of fd) = validated.

(** An accepted request whose sender and recipient usernames both have a
    profile row; [s] and [r] are the first rows found. *)
Definition resolved (env : Env) (request : Request) (w : World)
  (fd : FormData) (u : User) (s r : Profile) : Prop :=
  accepted env request fd u /\
  Js.at0 (profile_rows w (Some (user_username u))) = Some s /\
  Js.at0 (profile_rows w (to (data_of fd))) = Some r.

(** A resolved request that the rate limit lets through. *)
Definition let_through (env : Env) (request : Request) (w : World)
  (fd : FormData) (u : User) (s r : Profile) : Prop :=
  resolved env request w fd u s r /\ count_failure env = None /\
  recent_count env w (profile_id s) < 20.

(** The ways the handler serves a request: the response and the world it
    leaves, path by path. *)
Inductive served (env : Env) (request : Request) (w : World)
  : Response -> World -> Prop :=
| served_unparsed :
    body request = None ->
    served env request w
      (error_response (Js.TypeError "request.formData"))
      (logged w [ConsoleError (Js.TypeError "request.formData")])
| served_invalid (fd : FormData) :
    body request = Some fd ->
    Js.truthy_bool
      (valid (validateRequest request (session_user env) (data_of fd))) = false ->
    served env request w
      (invalid_response (validateRequest request (session_user env) (data_of fd)))
      (logged w [GetUser])
| served_no_sender (fd : FormData) (u : User) :
    accepted env request fd u ->
    Js.at0 (profile_rows w (Some (user_username u))) = None ->
    served env request w
      (error_response (Js.TypeError "userProfile.data.at(0)"))
      (logged w (lookups fd u
                 ++ [ConsoleError (Js.TypeError "userProfile.data.at(0)")]))
| served_no_recipient (fd : FormData) (u : User) (s : Profile) :
    accepted env request fd u ->
    Js.at0 (profile_rows w (Some (user_username u))) = Some s ->
    Js.at0 (profile_rows w (to (data_of fd))) = None ->
    served env request w
      (error_response (Js.TypeError "recipientProfile.data.at(0)"))
      (logged w (lookups fd u
                 ++ [ConsoleError (Js.TypeError "recipientProfile.data.at(0)")]))
| served_count_failed (fd : FormData) (u : User) (s r : Profile) (e : string) :
    resolved env request w fd u s r ->
    count_failure env = Some e ->
    served env request w
      (error_response (Js.PostgrestError e))
      (logged w (counted env fd u s ++ [ConsoleError (Js.PostgrestError e)]))
| served_rate_limited (fd : FormData) (u : User) (s r : Profile) :
    resolved env request w fd u s r ->
    count_failure env = None ->
    20 <= recent_count env w (profile_id s) ->
    served env request w rate_limit_response (logged w (counted env fd u s))
| served_insert_failed (fd : FormData) (u : User) (s r : Profile) (e : string) :
    let_through env request w fd u s r ->
    insert_failure env = Some e ->
    served env request w
      (error_response (Js.PostgrestError e))
      (logged w (inserted env fd u s r ++ [ConsoleError (Js.PostgrestError e)]))
| served_lookup_failed (fd : FormData) (u : User) (s r : Profile) :
    let_through env request w fd u s r ->
    insert_failure env = None ->
    email_lookup env fd r = None ->
    served env request w
      (error_response (Js.TypeError "emailResult.data"))
      (posted w (stored env (row_of env fd s r))
         (inserted env fd u s r
          ++ [email_lookup_call fd r;
              ConsoleError (Js.TypeError "emailResult.data")]))
| served_no_address (fd : FormData) (u : User) (s r : Profile) :
    let_through env request w fd u s r ->
    insert_failure env = None ->
    email_lookup env fd r = Some [] ->
    served env request w
      (error_response (Js.TypeError "receiver"))
      (posted w (stored env (row_of env fd s r))
         (inserted env fd u s r
          ++ [email_lookup_call fd r; ConsoleError (Js.TypeError "receiver")]))
| served_provider_error (fd : FormData) (u : User) (s r : Profile)
    (address : string) (others : list string) :
    let_through env request w fd u s r ->
    insert_failure env = None ->
    email_lookup env fd r = Some (address :: others) ->
    Js.truthy (sendEmail_error env (mail_of w fd u s address)) = true ->
    statusText_ok (sendEmail_error env (mail_of w fd u s address)) = true ->
    served env request w
      (provider_error_response (sendEmail_error env (mail_of w fd u s address)))
      (posted w (stored env (row_of env fd s r))
         (inserted env fd u s r
          ++ [email_lookup_call fd r; SendEmail (mail_of w fd u s address)]))
| served_unsendable_error (fd : FormData) (u : User) (s r : Profile)
    (address : string) (others : list string) :
    let_through env request w fd u s r ->
    insert_failure env = None ->
    email_lookup env fd r = Some (address :: others) ->
    Js.truthy (sendEmail_error env (mail_of w fd u s address)) = true ->
    statusText_ok (sendEmail_error env (mail_of w fd u s address)) = false ->
    served env request w
      (error_response (Js.TypeError "Invalid statusText"))
      (posted w (stored env (row_of env fd s r))
         (inserted env fd u s r
          ++ [email_lookup_call fd r; SendEmail (mail_of w fd u s address);
              ConsoleError (Js.TypeError "Invalid statusText")]))
| served_created (fd : FormData) (u : User) (s r : Profile)
    (address : string) (others : list string) :
    let_through env request w fd u s r ->
    insert_failure env = None ->
    email_lookup env fd r = Some (address :: others) ->
    Js.truthy (sendEmail_error env (mail_of w fd u s address)) = false ->
    served env request w created_response
      (posted w (stored env (row_of env fd s r))
         (inserted env fd u s r
          ++ [email_lookup_call fd r; SendEmail (mail_of w fd u s address)])).

(** The positions of calls in a trace. *)
Fixpoint position (p : Event -> bool) (calls : list Event) : option nat :=
  match calls with
  | [] => None
  | e :: rest =>
      if p e then Some O
      else match position p rest with
           | Some i => Some (S i)
           | None => None
           end
  end.

Definition is_insert (e : Event) : bool :=
  match e with InsertMessage _ => true | _ => false end.

Definition is_settings_fetch (e : Event) : bool :=
  match e with SelectTenantSettings => true | _ => false end.

(** Both kinds of call occur and the first [p] comes before the first [q]. *)
Definition comes_before (p q : Event -> bool) (calls : list Event) : bool :=
  match position p calls, position q calls with
  | Some i, Some j => Nat.ltb i j
  | _, _ => false
  end.

(** ** Default settings and sample tables *)

Definition defaultTenantSettings : TenantSettings :=
  {| siteName := "The Community Platform";
     siteUrl := "https://community.preciousplastic.com";
     messageSignOff := "One Army";
     emailFrom := "hello@onearmy.earth";
     siteImage :=
       "https://community.preciousplastic.com/assets/img/one-army-logo.png" |}.

Definition sample_row : TenantSettingsRow :=
  {| site_name := Some "Fixing Fashion"; site_url := None;
     message_sign_off := Some ""; email_from := None;
     site_image := None |}.

Definition empty_world : World :=
  {| profiles := []; messages := []; tenant_settings := []; trace := [] |}.

Definition branded_world : World :=
  {| profiles := []; messages := []; tenant_settings := [sample_row];
     trace := [] |}.

Definition blank_row : TenantSettingsRow :=
  {| site_name := Some ""; site_url := Some ""; message_sign_off := Some "";
     email_from := Some ""; site_image := Some "" |}.

Definition blank_world : World :=
  {| profiles := []; messages := []; tenant_settings := [blank_row];
     trace := [] |}.

(** ** A concrete deployment, for the examples below *)

Module Scenario.

Definition clock : Z := 1730000000000.

Definition alice : User :=
  {| email := Some "alice@example.org"; user_username := "alice" |}.

Definition alice_profile : Profile :=
  {| profile_id := 1; username := "alice"; auth_id := Some "a1f0" |}.

Definition bob_profile : Profile :=
  {| profile_id := 2; username := "bob"; auth_id := None |}.

(** A message alice sent a minute ago. *)
Definition earlier : Message :=
  {| sender_id := 1; receiver_id := 2; message_text := Some "hello";
     tenant_id := "precious-plastic"; created_at := clock - 60000 |}.

(** The database with [n] recent messages of alice. *)
Definition busy (n : nat) : World :=
  {| profiles := [alice_profile; bob_profile];
     messages := repeat earlier n;
     tenant_settings := [];
     trace := [] |}.

Definition env : Env :=
  {| session_user := Some alice;
     Date_now := clock;
     TENANT_ID := "precious-plastic";
     insert_latency := 5%N;
     count_failure := None;
     insert_failure := None;
     get_user_email_by_id := fun _ => Some ["bob@auth.example"];
     get_user_email_by_username := fun _ => Some ["bob@example.org"];
     sendEmail_error := fun _ => None |}.


Definition form_to (recipient : string) : FormData :=
  [("to", recipient); ("message", "Can I visit your workspace?")].

Definition post_to (recipient : string) : Request :=
  {| method := "POST"; body := Some (form_to recipient) |}.

Definition put_to (recipient : string) : Request :=
  {| method := "PUT"; body := Some (form_to recipient) |}.

End Scenario.

(** ** Further sample deployments: failing collaborators *)

(** The world [w] with [rows] as its messages table. *)
Definition with_messages (w : World) (rows : list Message) : World :=
  {| profiles := profiles w; messages := rows;
     tenant_settings := tenant_settings w; trace := trace w |}.

Module Faults.

(** A deployment like [Scenario.env] in which the named collaborators
    answer as given. *)
Definition env_with (user : option User) (count_fail insert_fail : option string)
  (addresses : option (list string)) (send_err : option string) : Env :=
  {| session_user := user;
     Date_now := Scenario.clock;
     TENANT_ID := "precious-plastic";
     insert_latency := 5%N;
     count_failure := count_fail;
     insert_failure := insert_fail;
     get_user_email_by_id := fun _ => addresses;
     get_user_email_by_username := fun _ => addresses;
     sendEmail_error := fun _ => send_err |}.

Definition anonymous : Env :=
  env_with None None None (Some ["bob@example.org"]) None.


Definition insert_down : Env :=
  env_with (Some Scenario.alice) None (Some "row-level security") 
    (Some ["bob@example.org"]) None.

Definition lookup_down : Env :=
  env_with (Some Scenario.alice) None None None None.

Definition no_address : Env :=
  env_with (Some Scenario.alice) None None (Some []) None.



(** A request whose body is not form data. *)
Definition garbled : Request := {| method := "POST"; body := None |}.

(** A message alice sent exactly 24 hours before the clock reading. *)
Definition day_old : Message :=
  {| sender_id := 1; receiver_id := 2; message_text := Some "yesterday";
     tenant_id := "precious-plastic";
     created_at := Scenario.clock - 1000 * 60 * 60 * 24 |}.

(** A message bob sent a minute ago. *)
Definition from_bob : Message :=
  {| sender_id := 2; receiver_id := 1; message_text := Some "reply";
     tenant_id := "precious-plastic"; created_at := Scenario.clock - 60000 |}.

Definition full_row : TenantSettingsRow :=
  {| site_name := Some "Project Kamp"; site_url := Some "https://community.projectkamp.com";
     message_sign_off := Some "Project Kamp Team";
     email_from := Some "hello@projectkamp.com";
     site_image := Some "https://community.projectkamp.com/logo.png" |}.

Definition kamp_world : World :=
  {| profiles := []; messages := []; tenant_settings := [full_row];
     trace := [] |}.

End Faults.

(** * Properties *)

(** ** Tenant settings *)

Section TenantSettingsFacts.

Lemma or_else_default (d : string) : Js.or_else None d = d.
Proof. reflexivity. Qed.

Lemma or_else_empty (d : string) : Js.or_else (Some "") d = d.
Proof. reflexivity. Qed.

Lemma truthy_string_nonempty (s : string) :
  Js.truthy_string s = true <-> s <> "".
Proof.
  unfold Js.truthy_string.
  destruct (String.eqb_spec s ""); simpl; split; congruence.
Qed.



Lemma or_else_nonempty (v : option string) (d : string) :
  d <> "" -> Js.or_else v d <> "".
Proof.
  intros Hd. destruct v as [s|]; simpl; [|exact Hd].
  destruct (Js.truthy_string s) eqn:E; [|exact Hd].
  now apply truthy_string_nonempty.
Qed.

(** Running [getTenantSettings] only reads: it returns the settings built
    from the single row of the table and logs the query. *)
Lemma getTenantSettings_run (w : World) :
  getTenantSettings w =
  (Value (tenantSettingsOf (single (tenant_settings w))),
   {| profiles := profiles w; messages := messages w;
      tenant_settings := tenant_settings w;
      trace := trace w ++ [SelectTenantSettings] |}).
Proof. reflexivity. Qed.

End TenantSettingsFacts.

(** C5. When the tenant-settings query yields no row, [getTenantSettings]
    returns exactly the five documented defaults; and for any row, a field
    that is unset (null) in the row takes its own default, whatever the
    other fields hold. *)
Theorem getTenantSettings_defaults :
  (forall w : World,
      single (tenant_settings w) = None ->
      fst (getTenantSettings w) = Value defaultTenantSettings) /\
  (forall (w : World) (row : TenantSettingsRow),
      single (tenant_settings w) = Some row ->
      exists s : TenantSettings,
        fst (getTenantSettings w) = Value s /\
        (site_name row = None -> siteName s = "The Community Platform") /\
        (site_url row = None ->
         siteUrl s = "https://community.preciousplastic.com") /\
        (message_sign_off row = None -> messageSignOff s = "One Army") /\
        (email_from row = None -> emailFrom s = "hello@onearmy.earth") /\
        (site_image row = None ->
         siteImage s =
         "https://community.preciousplastic.com/assets/img/one-army-logo.png")).
Proof.
  split.
  - intros w Hnone. rewrite getTenantSettings_run. simpl.
    rewrite Hnone. reflexivity.
  - intros w row Hrow. rewrite getTenantSettings_run. simpl.
    rewrite Hrow. eexists. split; [reflexivity|].
    simpl. repeat split; intros ->; reflexivity.
Qed.

Lemma getTenantSettings_defaults_witness :
  fst (getTenantSettings empty_world) = Value defaultTenantSettings /\
  exists s : TenantSettings,
    fst (getTenantSettings branded_world) = Value s /\
    (site_name sample_row = None -> siteName s = "The Community Platform") /\
    (site_url sample_row = None ->
     siteUrl s = "https://community.preciousplastic.com") /\
    (message_sign_off sample_row = None -> messageSignOff s = "One Army") /\
    (email_from sample_row = None -> emailFrom s = "hello@onearmy.earth") /\
    (site_image sample_row = None ->
     siteImage s =
     "https://community.preciousplastic.com/assets/img/one-army-logo.png").
Proof.
  split.
  - apply (proj1 getTenantSettings_defaults empty_world). reflexivity.
  - apply (proj2 getTenantSettings_defaults branded_world sample_row).
    reflexivity.
Defined.

(** C10. The fallback is taken for a falsy stored value too: a field that is
    null or the empty string yields its default, a non-empty one is kept,
    and so every field of the settings returned is a non-empty string,
    whatever the table holds. *)
Theorem getTenantSettings_nonempty :
  forall w : World,
  exists s : TenantSettings,
    fst (getTenantSettings w) = Value s /\
    s = tenantSettingsOf (single (tenant_settings w)) /\
    siteName s <> "" /\ siteUrl s <> "" /\ messageSignOff s <> "" /\
    emailFrom s <> "" /\ siteImage s <> "" /\
    (forall row : TenantSettingsRow,
        single (tenant_settings w) = Some row ->
        (site_name row = Some "" -> siteName s = siteName defaultTenantSettings) /\
        (site_url row = Some "" -> siteUrl s = siteUrl defaultTenantSettings) /\
        (message_sign_off row = Some "" ->
         messageSignOff s = messageSignOff defaultTenantSettings) /\
        (email_from row = Some "" ->
         emailFrom s = emailFrom defaultTenantSettings) /\
        (site_image row = Some "" ->
         siteImage s = siteImage defaultTenantSettings)).
Proof.
  intros w. rewrite getTenantSettings_run. simpl.
  eexists. split; [reflexivity|]. split; [reflexivity|].
  unfold tenantSettingsOf; simpl.
  repeat split; try (apply or_else_nonempty; discriminate).
  all: rewrite H; simpl; intros ->; reflexivity.
Qed.

Lemma getTenantSettings_nonempty_witness :
  exists s : TenantSettings,
    fst (getTenantSettings blank_world) = Value s /\
    s = defaultTenantSettings /\ siteName s <> "" /\ emailFrom s <> "".
Proof.
  destruct (getTenantSettings_nonempty blank_world)
    as (s & Hrun & Hs & Hname & _ & _ & Hfrom & _ & Hrow).
  exists s. split; [exact Hrun|]. split; [|split; assumption].
  destruct (Hrow blank_row eq_refl) as (H1 & H2 & H3 & H4 & H5).
  destruct s; simpl in H1, H2, H3, H4, H5.
  rewrite (H1 eq_refl), (H2 eq_refl), (H3 eq_refl), (H4 eq_refl), (H5 eq_refl).
  reflexivity.
Defined.

(** ** Research update form: image inputs *)

Module ResearchUpdateFormFacts.

Import ResearchUpdateForm.
Local Open Scope nat_scope.

Lemma filter_present_length (imgs : list (option File)) :
  List.length (filter present imgs) = count_present imgs.
Proof.
  induction imgs as [|[f|] rest IH]; simpl; [reflexivity | | assumption].
  now rewrite IH.
Qed.

(** C7. With N non-empty image entries in the form state, the number of
    image inputs offered is min(N + 1, 10): N + 1 when N < 9 and 10 when
    N >= 9. *)
Theorem numberOfImageInputsAvailable_slots :
  forall values : option ResearchUpdateFormData,
    numberOfImageInputsAvailable values
    = Nat.min (nonEmptyImages values + 1) 10 /\
    (nonEmptyImages values < 9 ->
     numberOfImageInputsAvailable values = nonEmptyImages values + 1) /\
    (9 <= nonEmptyImages values ->
     numberOfImageInputsAvailable values = 10).
Proof.
  intros values.
  assert (E : numberOfImageInputsAvailable values
              = Nat.min (nonEmptyImages values + 1) 10).
  { unfold numberOfImageInputsAvailable, nonEmptyImages.
    destruct (Js.opt_chain values images) as [imgs|].
    - now rewrite filter_present_length.
    - reflexivity. }
  rewrite E. repeat split; intros; lia.
Qed.

Lemma numberOfImageInputsAvailable_slots_witness :
  numberOfImageInputsAvailable two_of_three = 3 /\
  numberOfImageInputsAvailable ten_filled = 10 /\
  numberOfImageInputsAvailable None = 1.
Proof.
  split; [|split].
  - apply (proj1 (proj2 (numberOfImageInputsAvailable_slots two_of_three))).
    vm_compute. lia.
  - apply (proj2 (proj2 (numberOfImageInputsAvailable_slots ten_filled))).
    vm_compute. lia.
  - apply (proj1 (proj2 (numberOfImageInputsAvailable_slots None))).
    vm_compute. lia.
Defined.

(** ** Research update form: the submit guard *)

Lemma onSubmit_saving (props : Props) (st : State)
  (formData : ResearchUpdateFormData) (isDraft : bool) :
  isSaving st = true -> onSubmit props st formData isDraft = (st, None).
Proof. unfold onSubmit. intros ->. reflexivity. Qed.

Lemma onSubmit_idle (props : Props) (st : State)
  (formData : ResearchUpdateFormData) (isDraft : bool) :
  isSaving st = false ->
  exists c : UpsertCall,
    snd (onSubmit props st formData isDraft) = Some c /\
    isSaving (fst (onSubmit props st formData isDraft)) = true.
Proof. unfold onSubmit. intros ->. eexists. split; reflexivity. Qed.

Lemma mount_guarded : guarded mount.
Proof. split; simpl; [lia | congruence]. Qed.

Lemma step_guarded (props : Props) (m m' : Mounted) :
  guarded m -> step props m m' -> guarded m'.
Proof.
  intros [Hlen Hflag] Hstep.
  destruct Hstep as [m formData isDraft | m before after c answer Hsplit
                    | m b | m index | m loaded];
    unfold guarded; simpl.
  - destruct (isSaving (ui m)) eqn:Hsaving.
    + rewrite (onSubmit_saving props _ formData isDraft Hsaving). simpl.
      split; [exact Hlen | intros _; exact Hsaving].
    + destruct (onSubmit_idle props _ formData isDraft Hsaving)
        as (c & Hcall & Hset).
      rewrite Hcall, Hset.
      assert (Hempty : in_flight m = []).
      { destruct (in_flight m) as [|x l]; [reflexivity|].
        assert (Habsurd : false = true) by (apply Hflag; discriminate).
        discriminate Habsurd. }
      rewrite Hempty. simpl. split; [lia | reflexivity].
  - rewrite Hsplit, length_app in Hlen. simpl in Hlen.
    assert (Hb : before = []) by (destruct before; [reflexivity | simpl in Hlen; lia]).
    assert (Ha : after = []) by (destruct after; [reflexivity | simpl in Hlen; lia]).
    subst before after. simpl. split; [lia | congruence].
  - split; assumption.
  - split; assumption.
  - split; assumption.
Qed.

Lemma reachable_guarded (props : Props) (m : Mounted) :
  reachable props m -> guarded m.
Proof.
  induction 1 as [|m m' _ IH Hstep].
  - exact mount_guarded.
  - exact (step_guarded props m m' IH Hstep).
Qed.

(** C8. Invoking the submit handler while the saving flag is set does
    nothing: the state is returned unchanged and no remote upsert call is
    started.  In every state the form can reach by user interaction and
    settling calls, a call in flight implies the flag is set, so a
    further submit is such a no-op and at most one upsert call is ever in
    flight. *)
Theorem onSubmit_guard :
  forall props : Props,
    (forall (st : State) (formData : ResearchUpdateFormData) (isDraft : bool),
        isSaving st = true ->
        onSubmit props st formData isDraft = (st, None)) /\
    (forall m : Mounted,
        reachable props m ->
        List.length (in_flight m) <= 1 /\
        (in_flight m <> [] ->
         forall (formData : ResearchUpdateFormData) (isDraft : bool),
           onSubmit props (ui m) formData isDraft = (ui m, None))).
Proof.
  intros props. split.
  - intros st formData isDraft. apply onSubmit_saving.
  - intros m Hreach. destruct (reachable_guarded props m Hreach) as [Hlen Hflag].
    split; [exact Hlen|].
    intros Hbusy formData isDraft. apply onSubmit_saving. now apply Hflag.
Qed.

Lemma onSubmit_guard_witness :
  List.length (in_flight submitted_once) = 1 /\
  onSubmit some_props (ui submitted_once) draft_form true
  = (ui submitted_once, None) /\
  onSubmit some_props (ui submitted_once) draft_form false
  = (ui submitted_once, None).
Proof.
  split; [reflexivity|]. split.
  - apply (proj2 (onSubmit_guard some_props)).
    + apply (reach_step some_props mount); [apply reach_mount|].
      apply step_submit.
    + discriminate.
  - apply (proj1 (onSubmit_guard some_props)). reflexivity.
Defined.

End ResearchUpdateFormFacts.

(** *** Symbolic execution of the handler *)

(** A line feed, and a character above U+00FF (here the euro sign, E2 82 AC
    in UTF-8), are refused; a Latin-1 character (here e with acute accent,
    C3 A9) is accepted. *)
Lemma isValidReasonPhrase_examples :
  isValidReasonPhrase ("a" ++ String (Ascii.ascii_of_nat 10) "b") = false /\
  isValidReasonPhrase
    (String (Ascii.ascii_of_nat 226)
       (String (Ascii.ascii_of_nat 130) (String (Ascii.ascii_of_nat 172) "")))
  = false /\
  isValidReasonPhrase
    (String (Ascii.ascii_of_nat 195) (String (Ascii.ascii_of_nat 169) ""))
  = true /\
  isValidReasonPhrase "Error sending email" = true.
Proof. repeat split. Qed.

Lemma error_text_ok : statusText_ok (Some "Error sending message") = true.
Proof. reflexivity. Qed.

Lemma spam_text_ok : statusText_ok (Some spam_protection_text) = true.
Proof. reflexivity. Qed.

Lemma validation_text_ok (request : Request) (user : option User)
  (data : MessageData) :
  statusText_ok (statusText (validateRequest request user data)) = true.
Proof.
  unfold validateRequest.
  destruct user as [u|]; [|reflexivity].
  destruct (negb (String.eqb (method request) "POST")); [reflexivity|].
  destruct (negb (Js.truthy (to data))); [reflexivity|].
  destruct (negb (Js.truthy (message data))); [reflexivity|].
  destruct (negb (Js.truthy (email u))); reflexivity.
Qed.

Ltac tidy :=
  cbn beta iota zeta delta
    [profiles messages tenant_settings trace fst snd valid status statusText
     Js.truthy_bool validated negb count count_error].

Ltac step :=
  unfold action, request_formData, auth_getUser, select_profiles,
    count_messages, insert_message, rpc_get_user_email_by_id,
    rpc_get_user_email_by_username, sendEmail, console_error,
    getTenantSettings, Response_json, run, try_catch, bind, ret, return_,
    throw, emit, non_null, profile_rows;
  tidy;
  rewrite ?error_text_ok, ?spam_text_ok, ?validation_text_ok;
  change (statusText_ok None) with true;
  tidy.

Ltac exec := repeat (progress step).

Ltac by_fact H := rewrite H; exec.

(** Closes a goal [(Some response, world) = (Some response', world')] whose
    sides differ only in how the trace is bracketed. *)
Ltac same_world :=
  unfold logged, posted, inserted, counted, lookups, DAY,
    invalid_response, error_response, rate_limit_response,
    provider_error_response, created_response, new_Response, row_of, mail_of;
  repeat rewrite <- app_assoc; reflexivity.

Section Paths.

Variables (env : Env) (request : Request) (w : World).

Lemma validateRequest_accepts (user : option User) (data : MessageData) :
  Js.truthy_bool (valid (validateRequest request user data)) = true ->
  exists u : User,
    user = Some u /\ validateRequest request user data = validated.
Proof.
  unfold validateRequest. destruct user as [u|]; [|discriminate].
  intros H. exists u. split; [reflexivity|].
  destruct (negb (String.eqb (method request) "POST")); [discriminate|].
  destruct (negb (Js.truthy (to data))); [discriminate|].
  destruct (negb (Js.truthy (message data))); [discriminate|].
  destruct (negb (Js.truthy (email u))); [discriminate|].
  reflexivity.
Qed.

Lemma passes_validation_accepted :
  passes_validation env request = true <->
  exists (fd : FormData) (u : User), accepted env request fd u.
Proof.
  unfold passes_validation, accepted. split.
  - destruct (body request) as [fd|]; [|discriminate].
    intros Hv. destruct (validateRequest_accepts _ _ Hv) as (u & Hu & Hval).
    exists fd, u. rewrite Hu in Hval. repeat split; assumption.
  - intros (fd & u & -> & -> & ->). reflexivity.
Qed.

Lemma at_least_20_iff (n : Z) : at_least_20 (Some n) = true <-> 20 <= n.
Proof. apply Z.leb_le. Qed.

Lemma at_least_20_not (n : Z) : at_least_20 (Some n) = false <-> n < 20.
Proof. apply Z.leb_gt. Qed.

Lemma run_unparsed :
  body request = None ->
  run (action env request) w =
  (Some (error_response (Js.TypeError "request.formData")),
   logged w [ConsoleError (Js.TypeError "request.formData")]).
Proof. intros Hb. exec. by_fact Hb. same_world. Qed.

Lemma run_invalid (fd : FormData) :
  body request = Some fd ->
  Js.truthy_bool
    (valid (validateRequest request (session_user env) (data_of fd))) = false ->
  run (action env request) w =
  (Some (invalid_response
           (validateRequest request (session_user env) (data_of fd))),
   logged w [GetUser]).
Proof. intros Hb Hv. exec. by_fact Hb. by_fact Hv. same_world. Qed.

Section Accepted.

Variables (fd : FormData) (u : User).
Hypothesis Haccepted : accepted env request fd u.

Ltac enter :=
  destruct Haccepted as (Hb & Hu & Hv); unfold profile_rows in *;
  exec; by_fact Hb; by_fact Hu; by_fact Hv.

Lemma run_no_sender :
  Js.at0 (profile_rows w (Some (user_username u))) = None ->
  run (action env request) w =
  (Some (error_response (Js.TypeError "userProfile.data.at(0)")),
   logged w (lookups fd u
             ++ [ConsoleError (Js.TypeError "userProfile.data.at(0)")])).
Proof. intros Hs. enter. by_fact Hs. same_world. Qed.

Lemma run_no_recipient (s : Profile) :
  Js.at0 (profile_rows w (Some (user_username u))) = Some s ->
  Js.at0 (profile_rows w (to (data_of fd))) = None ->
  run (action env request) w =
  (Some (error_response (Js.TypeError "recipientProfile.data.at(0)")),
   logged w (lookups fd u
             ++ [ConsoleError (Js.TypeError "recipientProfile.data.at(0)")])).
Proof. intros Hs Hr. enter. by_fact Hs. by_fact Hr. same_world. Qed.

End Accepted.

Section Resolved.

Variables (fd : FormData) (u : User) (s r : Profile).
Hypothesis Hresolved : resolved env request w fd u s r.

Ltac enter :=
  destruct Hresolved as ((Hb & Hu & Hv) & Hs & Hr);
  unfold profile_rows in *;
  exec; by_fact Hb; by_fact Hu; by_fact Hv; by_fact Hs; by_fact Hr.

Lemma run_count_failed (e : string) :
  count_failure env = Some e ->
  run (action env request) w =
  (Some (error_response (Js.PostgrestError e)),
   logged w (counted env fd u s ++ [ConsoleError (Js.PostgrestError e)])).
Proof. intros Hc. enter. by_fact Hc. same_world. Qed.

Lemma run_rate_limited :
  count_failure env = None ->
  20 <= recent_count env w (profile_id s) ->
  run (action env request) w =
  (Some rate_limit_response, logged w (counted env fd u s)).
Proof.
  intros Hc Hn. apply at_least_20_iff in Hn.
  unfold recent_count, DAY in Hn.
  enter. by_fact Hc. by_fact Hn. same_world.
Qed.

End Resolved.

Section PastTheLimit.

Variables (fd : FormData) (u : User) (s r : Profile).
Hypothesis Hpast : let_through env request w fd u s r.

Ltac enter :=
  destruct Hpast as (((Hb & Hu & Hv) & Hs & Hr) & Hc & Hn);
  apply at_least_20_not in Hn; unfold recent_count, DAY in Hn;
  unfold profile_rows, email_lookup, email_lookup_call in *;
  exec; by_fact Hb; by_fact Hu; by_fact Hv; by_fact Hs; by_fact Hr;
  by_fact Hc; by_fact Hn.

Lemma run_insert_failed (e : string) :
  insert_failure env = Some e ->
  run (action env request) w =
  (Some (error_response (Js.PostgrestError e)),
   logged w (inserted env fd u s r
             ++ [ConsoleError (Js.PostgrestError e)])).
Proof. intros Hi. enter. by_fact Hi. same_world. Qed.

Lemma run_lookup_failed :
  insert_failure env = None ->
  email_lookup env fd r = None ->
  run (action env request) w =
  (Some (error_response (Js.TypeError "emailResult.data")),
   posted w (stored env (row_of env fd s r))
     (inserted env fd u s r
      ++ [email_lookup_call fd r;
          ConsoleError (Js.TypeError "emailResult.data")])).
Proof.
  intros Hi Hl. enter. by_fact Hi.
  destruct (Js.truthy (auth_id r)); exec; by_fact Hl; same_world.
Qed.

Lemma run_no_address :
  insert_failure env = None ->
  email_lookup env fd r = Some [] ->
  run (action env request) w =
  (Some (error_response (Js.TypeError "receiver")),
   posted w (stored env (row_of env fd s r))
     (inserted env fd u s r
      ++ [email_lookup_call fd r;
          ConsoleError (Js.TypeError "receiver")])).
Proof.
  intros Hi Hl. enter. by_fact Hi.
  destruct (Js.truthy (auth_id r)); exec; by_fact Hl;
    change (Js.at0 (@nil string)) with (@None string); exec; same_world.
Qed.

Lemma run_provider_error (address : string) (others : list string) :
  insert_failure env = None ->
  email_lookup env fd r = Some (address :: others) ->
  Js.truthy (sendEmail_error env (mail_of w fd u s address)) = true ->
  statusText_ok (sendEmail_error env (mail_of w fd u s address)) = true ->
  run (action env request) w =
  (Some (provider_error_response
           (sendEmail_error env (mail_of w fd u s address))),
   posted w (stored env (row_of env fd s r))
     (inserted env fd u s r
      ++ [email_lookup_call fd r; SendEmail (mail_of w fd u s address)])).
Proof.
  intros Hi Hl He Hok. unfold mail_of in He, Hok. enter. by_fact Hi.
  destruct (Js.truthy (auth_id r)); exec; by_fact Hl;
    change (Js.at0 (address :: others)) with (Some address); exec;
    by_fact He; by_fact Hok; same_world.
Qed.

(** The provider's error text is not a valid reason phrase: building the
    429 response throws, and the [catch] block answers. *)
Lemma run_unsendable_error (address : string) (others : list string) :
  insert_failure env = None ->
  email_lookup env fd r = Some (address :: others) ->
  Js.truthy (sendEmail_error env (mail_of w fd u s address)) = true ->
  statusText_ok (sendEmail_error env (mail_of w fd u s address)) = false ->
  run (action env request) w =
  (Some (error_response (Js.TypeError "Invalid statusText")),
   posted w (stored env (row_of env fd s r))
     (inserted env fd u s r
      ++ [email_lookup_call fd r; SendEmail (mail_of w fd u s address);
          ConsoleError (Js.TypeError "Invalid statusText")])).
Proof.
  intros Hi Hl He Hok. unfold mail_of in He, Hok. enter. by_fact Hi.
  destruct (Js.truthy (auth_id r)); exec; by_fact Hl;
    change (Js.at0 (address :: others)) with (Some address); exec;
    by_fact He; by_fact Hok; same_world.
Qed.

Lemma run_created (address : string) (others : list string) :
  insert_failure env = None ->
  email_lookup env fd r = Some (address :: others) ->
  Js.truthy (sendEmail_error env (mail_of w fd u s address)) = false ->
  run (action env request) w =
  (Some created_response,
   posted w (stored env (row_of env fd s r))
     (inserted env fd u s r
      ++ [email_lookup_call fd r; SendEmail (mail_of w fd u s address)])).
Proof.
  intros Hi Hl He. unfold mail_of in He. enter. by_fact Hi.
  destruct (Js.truthy (auth_id r)); exec; by_fact Hl;
    change (Js.at0 (address :: others)) with (Some address); exec;
    by_fact He; same_world.
Qed.

End PastTheLimit.

End Paths.

(** *** Every run is one of the paths *)

Lemma action_served (env : Env) (request : Request) (w : World) :
  exists (resp : Response) (w' : World),
    run (action env request) w = (Some resp, w') /\
    served env request w resp w'.
Proof.
  destruct (body request) as [fd|] eqn:Hb.
  2: { do 2 eexists. split; [apply run_unparsed; exact Hb|].
       now apply served_unparsed. }
  destruct (Js.truthy_bool
              (valid (validateRequest request (session_user env) (data_of fd))))
    eqn:Hv.
  2: { do 2 eexists. split; [apply run_invalid; eassumption|].
       now apply served_invalid. }
  destruct (validateRequest_accepts request _ _ Hv) as (u & Hu & Hval).
  rewrite Hu in Hval.
  assert (Hacc : accepted env request fd u) by (repeat split; assumption).
  destruct (Js.at0 (profile_rows w (Some (user_username u)))) as [s|] eqn:Hs.
  2: { do 2 eexists. split; [apply run_no_sender; eassumption|].
       now apply served_no_sender. }
  destruct (Js.at0 (profile_rows w (to (data_of fd)))) as [r|] eqn:Hr.
  2: { do 2 eexists. split; [eapply run_no_recipient; eassumption|].
       now apply served_no_recipient with (s := s). }
  assert (Hres : resolved env request w fd u s r) by (repeat split; assumption).
  destruct (count_failure env) as [e|] eqn:Hc.
  { do 2 eexists. split; [eapply run_count_failed; eassumption|].
    now apply served_count_failed with (r := r). }
  destruct (Z_lt_le_dec (recent_count env w (profile_id s)) 20) as [Hn|Hn].
  2: { do 2 eexists. split; [eapply run_rate_limited; eassumption|].
       now apply served_rate_limited with (r := r). }
  assert (Hpast : let_through env request w fd u s r) by (repeat split; assumption).
  destruct (insert_failure env) as [e|] eqn:Hi.
  { do 2 eexists. split; [eapply run_insert_failed; eassumption|].
    now apply served_insert_failed. }
  destruct (email_lookup env fd r) as [[|address others]|] eqn:Hl.
  - do 2 eexists. split; [eapply run_no_address; eassumption|].
    now apply served_no_address.
  - destruct (Js.truthy (sendEmail_error env (mail_of w fd u s address))) eqn:He.
    + destruct (statusText_ok (sendEmail_error env (mail_of w fd u s address)))
        eqn:Hok.
      * do 2 eexists. split; [eapply run_provider_error; eassumption|].
        now apply served_provider_error with (others := others).
      * do 2 eexists. split; [eapply run_unsendable_error; eassumption|].
        now apply served_unsendable_error with (others := others).
    + do 2 eexists. split; [eapply run_created; eassumption|].
      now apply served_created with (others := others).
  - do 2 eexists. split; [eapply run_lookup_failed; eassumption|].
    now apply served_lookup_failed.
Qed.

(** *** Facts about traces and counts *)

Lemma skipn_length_app {A : Type} (l calls : list A) :
  skipn (List.length l) (l ++ calls) = calls.
Proof. induction l as [|x l IH]; simpl; [reflexivity | exact IH]. Qed.

Lemma calls_between_logged (w : World) (calls : list Event) :
  calls_between w (logged w calls) = calls.
Proof. apply skipn_length_app. Qed.

Lemma calls_between_posted (w : World) (m : Message) (calls : list Event) :
  calls_between w (posted w m calls) = calls.
Proof. apply skipn_length_app. Qed.

Lemma count_since_snoc (from since : Z) (rows : list Message) (m : Message) :
  count_since from since (rows ++ [m])
  = count_since from since rows + (if sent_since from since m then 1 else 0).
Proof.
  unfold count_since. rewrite filter_app, length_app. simpl.
  destruct (sent_since from since m); simpl; lia.
Qed.

(** The row the handler stores counts for its sender from the moment it is
    stored. *)
Lemma stored_is_recent (env : Env) (fd : FormData) (s r : Profile) :
  sent_since (profile_id s) (Date_now env - DAY)
    (stored env (row_of env fd s r)) = true.
Proof.
  unfold sent_since, stored, row_of, DAY. simpl.
  apply andb_true_intro. split; [apply Z.eqb_refl|].
  apply Z.ltb_lt. pose proof (N2Z.is_nonneg (insert_latency env)). lia.
Qed.

Lemma recent_count_posted (env : Env) (w : World) (fd : FormData)
  (s r : Profile) (calls : list Event) :
  recent_count env (posted w (stored env (row_of env fd s r)) calls)
    (profile_id s)
  = recent_count env w (profile_id s) + 1.
Proof.
  unfold recent_count, posted. simpl messages.
  now rewrite count_since_snoc, stored_is_recent.
Qed.

(** ** Validation *)

Lemma validateRequest_refines (request : Request) (user : option User)
  (data : MessageData) :
  validateRequest request user data = ValidationSpec.validate request user data.
Proof.
  unfold ValidationSpec.validate, validateRequest. simpl.
  destruct user as [u|]; simpl; [|reflexivity].
  destruct (negb (String.eqb (method request) "POST")); [reflexivity|].
  destruct (negb (Js.truthy (to data))); [reflexivity|].
  destruct (negb (Js.truthy (message data))); [reflexivity|].
  destruct (negb (Js.truthy (email u))); reflexivity.
Qed.

Lemma method_not_post (request : Request) :
  method request <> "POST" -> negb (String.eqb (method request) "POST") = true.
Proof.
  intros H. destruct (String.eqb_spec (method request) "POST");
    [contradiction | reflexivity].
Qed.

(** C2. [validateRequest] is the documented sequence with the first failing
    check deciding: no user gives 401 whatever the rest of the request; a
    user with a method other than POST gives 405 whatever the fields; then a
    missing [to] gives 400 "to is required", then a missing [message] gives
    400 "message is required", then a user without email gives 400; a
    request that fails no check is valid.  The handler answers a failed
    validation with exactly that status and text, having called nothing
    but the session lookup and leaving every table as it was. *)
Theorem validateRequest_fail_fast :
  (forall request user data,
      validateRequest request user data
      = ValidationSpec.validate request user data) /\
  (forall request data,
      validateRequest request None data = invalid 401 "unauthorized") /\
  (forall request u data,
      method request <> "POST" ->
      validateRequest request (Some u) data = invalid 405 "method not allowed") /\
  (forall request u data,
      method request = "POST" -> Js.truthy (to data) = false ->
      validateRequest request (Some u) data = invalid 400 "to is required") /\
  (forall request u data,
      method request = "POST" -> Js.truthy (to data) = true ->
      Js.truthy (message data) = false ->
      validateRequest request (Some u) data = invalid 400 "message is required") /\
  (forall request u data,
      method request = "POST" -> Js.truthy (to data) = true ->
      Js.truthy (message data) = true -> Js.truthy (email u) = false ->
      validateRequest request (Some u) data
      = invalid 400 "Unable to get messenger email address") /\
  (forall request u data,
      method request = "POST" -> Js.truthy (to data) = true ->
      Js.truthy (message data) = true -> Js.truthy (email u) = true ->
      validateRequest request (Some u) data = validated) /\
  (forall env request w fd,
      body request = Some fd ->
      passes_validation env request = false ->
      exists (st : Z) (txt : string) (w' : World),
        validateRequest request (session_user env) (data_of fd) = invalid st txt /\
        run (action env request) w
        = (Some {| response_body := body_empty; response_status := st;
                   response_statusText := txt; response_headers := false |},
           w') /\
        calls_between w w' = [GetUser] /\
        messages w' = messages w /\ profiles w' = profiles w /\
        tenant_settings w' = tenant_settings w).
Proof.
  split; [exact validateRequest_refines|].
  split; [reflexivity|].
  split. { intros request u data H. unfold validateRequest.
           now rewrite (method_not_post request H). }
  split. { intros request u data Hm Ht. unfold validateRequest.
           rewrite Hm, Ht. reflexivity. }
  split. { intros request u data Hm Ht Hmsg. unfold validateRequest.
           rewrite Hm, Ht, Hmsg. reflexivity. }
  split. { intros request u data Hm Ht Hmsg He. unfold validateRequest.
           rewrite Hm, Ht, Hmsg, He. reflexivity. }
  split. { intros request u data Hm Ht Hmsg He. unfold validateRequest.
           rewrite Hm, Ht, Hmsg, He. reflexivity. }
  intros env request w fd Hb Hfail.
  unfold passes_validation in Hfail. rewrite Hb in Hfail.
  assert (Hshape : exists st txt,
             validateRequest request (session_user env) (data_of fd)
             = invalid st txt).
  { revert Hfail. unfold validateRequest.
    destruct (session_user env) as [u|]; [|intros _; now do 2 eexists].
    destruct (negb (String.eqb (method request) "POST")); [intros _; now do 2 eexists|].
    destruct (negb (Js.truthy (to (data_of fd)))); [intros _; now do 2 eexists|].
    destruct (negb (Js.truthy (message (data_of fd)))); [intros _; now do 2 eexists|].
    destruct (negb (Js.truthy (email u))); [intros _; now do 2 eexists|].
    discriminate. }
  destruct Hshape as (st & txt & Hshape).
  exists st, txt, (logged w [GetUser]).
  split; [exact Hshape|].
  split. { rewrite (run_invalid env request w fd Hb Hfail), Hshape. reflexivity. }
  split; [apply calls_between_logged|].
  repeat split.
Qed.

Lemma validateRequest_fail_fast_witness :
  validateRequest (Scenario.put_to "bob") (Some Scenario.alice)
    (data_of (Scenario.form_to "bob"))
  = invalid 405 "method not allowed" /\
  validateRequest (Scenario.post_to "") (Some Scenario.alice)
    (data_of (Scenario.form_to ""))
  = invalid 400 "to is required" /\
  exists (st : Z) (txt : string) (w' : World),
    validateRequest (Scenario.put_to "bob") (session_user Scenario.env)
      (data_of (Scenario.form_to "bob")) = invalid st txt /\
    run (action Scenario.env (Scenario.put_to "bob")) (Scenario.busy 2)
    = (Some {| response_body := body_empty; response_status := st;
               response_statusText := txt; response_headers := false |},
       w') /\
    calls_between (Scenario.busy 2) w' = [GetUser] /\
    messages w' = messages (Scenario.busy 2) /\
    profiles w' = profiles (Scenario.busy 2) /\
    tenant_settings w' = tenant_settings (Scenario.busy 2).
Proof.
  destruct validateRequest_fail_fast
    as (_ & _ & Hmethod & Hto & _ & _ & _ & Haction).
  split; [|split].
  - apply Hmethod. simpl. discriminate.
  - apply Hto; reflexivity.
  - apply Haction; reflexivity.
Defined.

(** ** Unknown profiles *)

(** C9. An accepted request whose recipient username, or whose sender
    username, matches no profile row gets no 4xx answer of its own: the
    dereference of the empty result throws a [TypeError], the [catch] block
    logs it, and the response is 500 "Error sending message".  Nothing is
    counted, stored or sent. *)
Theorem unknown_profile_is_500 :
  forall env request w fd u,
    accepted env request fd u ->
    Js.at0 (profile_rows w (to (data_of fd))) = None \/
    Js.at0 (profile_rows w (Some (user_username u))) = None ->
    exists (what : string) (resp : Response) (w' : World),
      run (action env request) w = (Some resp, w') /\
      resp = error_response (Js.TypeError what) /\
      response_status resp = 500 /\
      response_statusText resp = "Error sending message" /\
      calls_between w w'
      = (lookups fd u ++ [ConsoleError (Js.TypeError what)])%list /\
      messages w' = messages w.
Proof.
  intros env request w fd u Hacc Hmissing.
  destruct (Js.at0 (profile_rows w (Some (user_username u)))) as [s|] eqn:Hs.
  - destruct Hmissing as [Hr|Habsurd]; [|discriminate].
    exists "recipientProfile.data.at(0)". do 2 eexists.
    split; [exact (run_no_recipient env request w fd u Hacc s Hs Hr)|].
    repeat split. apply calls_between_logged.
  - exists "userProfile.data.at(0)". do 2 eexists.
    split; [exact (run_no_sender env request w fd u Hacc Hs)|].
    repeat split. apply calls_between_logged.
Qed.

Lemma unknown_profile_is_500_witness :
  exists (what : string) (resp : Response) (w' : World),
    run (action Scenario.env (Scenario.post_to "nobody")) (Scenario.busy 3)
    = (Some resp, w') /\
    resp = error_response (Js.TypeError what) /\
    response_status resp = 500 /\
    response_statusText resp = "Error sending message" /\
    calls_between (Scenario.busy 3) w'
    = (lookups (Scenario.form_to "nobody") Scenario.alice
       ++ [ConsoleError (Js.TypeError what)])%list /\
    messages w' = messages (Scenario.busy 3).
Proof.
  apply (unknown_profile_is_500 Scenario.env (Scenario.post_to "nobody")
           (Scenario.busy 3) (Scenario.form_to "nobody") Scenario.alice).
  - repeat split; reflexivity.
  - left. reflexivity.
Defined.

(** ** The rate limit *)

Lemma no_insert_among (calls : list Event) :
  Forall (fun e => match e with InsertMessage _ => False | _ => True end) calls ->
  forall row, ~ In (InsertMessage row) calls.
Proof.
  intros Hall row Hin.
  rewrite Forall_forall in Hall. exact (Hall _ Hin).
Qed.

(** The claim of C1 read on a concrete run: alice has sent 20 messages in
    the last day and writes to a username that has no profile.  The request
    passes validation and the count is 20, yet the answer is 500, not 429. *)
Lemma rate_limit_counterexample :
  passes_validation Scenario.env (Scenario.post_to "nobody") = true /\
  Js.at0 (profile_rows (Scenario.busy 20) (Some (user_username Scenario.alice)))
  = Some Scenario.alice_profile /\
  recent_count Scenario.env (Scenario.busy 20)
    (profile_id Scenario.alice_profile) = 20 /\
  option_map response_status
    (fst (run (action Scenario.env (Scenario.post_to "nobody"))
            (Scenario.busy 20))) = Some 500 /\
  option_map response_status
    (fst (run (action Scenario.env (Scenario.post_to "nobody"))
            (Scenario.busy 20))) <> Some 429.
Proof.
  split; [reflexivity|]. split; [reflexivity|]. split; [reflexivity|].
  split; [reflexivity|]. vm_compute. discriminate.
Qed.

(** C1, amended. For every request that passes validation and whose sender
    has sent at least 20 messages in the 24 hours before the handler's clock
    reading, no message row is inserted; and when moreover the recipient
    username has a profile and the count query does not fail, the response
    is 429 with the spam-protection text. *)
Theorem rate_limit_rejects :
  forall env request w fd u s,
    accepted env request fd u ->
    Js.at0 (profile_rows w (Some (user_username u))) = Some s ->
    20 <= recent_count env w (profile_id s) ->
    exists (resp : Response) (w' : World),
      run (action env request) w = (Some resp, w') /\
      messages w' = messages w /\
      (forall row, ~ In (InsertMessage row) (calls_between w w')) /\
      (forall r,
          Js.at0 (profile_rows w (to (data_of fd))) = Some r ->
          count_failure env = None ->
          resp = rate_limit_response /\
          response_status resp = 429 /\
          response_statusText resp = spam_protection_text).
Proof.
  intros env request w fd u s Hacc Hs Hn.
  destruct (Js.at0 (profile_rows w (to (data_of fd)))) as [r|] eqn:Hr.
  - assert (Hres : resolved env request w fd u s r)
      by (split; [exact Hacc | split; assumption]).
    destruct (count_failure env) as [e|] eqn:Hc.
    + do 2 eexists.
      split; [exact (run_count_failed env request w fd u s r Hres e Hc)|].
      split; [reflexivity|]. split; [|discriminate].
      rewrite calls_between_logged. apply no_insert_among.
      repeat constructor.
    + do 2 eexists.
      split; [exact (run_rate_limited env request w fd u s r Hres Hc Hn)|].
      split; [reflexivity|]. split; [|intros; repeat split].
      rewrite calls_between_logged. apply no_insert_among.
      repeat constructor.
  - do 2 eexists.
    split; [exact (run_no_recipient env request w fd u Hacc s Hs Hr)|].
    split; [reflexivity|]. split; [|discriminate].
    rewrite calls_between_logged. apply no_insert_among.
    repeat constructor.
Qed.

Lemma rate_limit_rejects_witness :
  exists (resp : Response) (w' : World),
    run (action Scenario.env (Scenario.post_to "bob")) (Scenario.busy 20)
    = (Some resp, w') /\
    messages w' = messages (Scenario.busy 20) /\
    resp = rate_limit_response /\
    response_status resp = 429.
Proof.
  destruct (rate_limit_rejects Scenario.env (Scenario.post_to "bob")
              (Scenario.busy 20) (Scenario.form_to "bob") Scenario.alice
              Scenario.alice_profile)
    as (resp & w' & Hrun & Hsame & _ & Hlimit).
  - repeat split; reflexivity.
  - reflexivity.
  - vm_compute. discriminate.
  - exists resp, w'.
    destruct (Hlimit Scenario.bob_profile eq_refl eq_refl) as (Hresp & Hst & _).
    repeat split; assumption.
Defined.

(** The claim of C4 read on a concrete run: alice has sent 19 messages in
    the last day and writes to a username that has no profile.  The request
    passes validation, yet no row is inserted and the answer is 500. *)
Lemma nineteen_counterexample :
  passes_validation Scenario.env (Scenario.post_to "nobody") = true /\
  recent_count Scenario.env (Scenario.busy 19)
    (profile_id Scenario.alice_profile) = 19 /\
  messages (snd (run (action Scenario.env (Scenario.post_to "nobody"))
                   (Scenario.busy 19)))
  = messages (Scenario.busy 19) /\
  recent_count Scenario.env
    (snd (run (action Scenario.env (Scenario.post_to "nobody"))
            (Scenario.busy 19)))
    (profile_id Scenario.alice_profile) <> 20 /\
  option_map response_status
    (fst (run (action Scenario.env (Scenario.post_to "nobody"))
            (Scenario.busy 19))) = Some 500.
Proof.
  split; [reflexivity|]. split; [reflexivity|]. split; [reflexivity|].
  split; [vm_compute; discriminate | reflexivity].
Qed.

Lemma provider_error_is_not_rate_limit (err : option string) :
  provider_error_response err <> rate_limit_response.
Proof.
  unfold provider_error_response, rate_limit_response, new_Response.
  intros H. injection H as Hbody Htext.
  subst err. discriminate Htext.
Qed.

(** C4, amended. For every request that passes validation, whose sender and
    recipient usernames both have a profile, whose sender has sent exactly
    19 messages in the trailing 24 hours, and for which neither the count
    query nor the insert fails: the send is not rate-limited, the message
    row is inserted, the sender's count becomes 20, and when the recipient's
    email is found and the provider reports no error the response is 201. *)
Theorem nineteen_goes_through :
  forall env request w fd u s r,
    resolved env request w fd u s r ->
    count_failure env = None ->
    insert_failure env = None ->
    recent_count env w (profile_id s) = 19 ->
    exists (resp : Response) (w' : World),
      run (action env request) w = (Some resp, w') /\
      resp <> rate_limit_response /\
      In (InsertMessage (row_of env fd s r)) (calls_between w w') /\
      messages w' = (messages w ++ [stored env (row_of env fd s r)])%list /\
      recent_count env w' (profile_id s) = 20 /\
      (forall address others,
          email_lookup env fd r = Some (address :: others) ->
          Js.truthy (sendEmail_error env (mail_of w fd u s address)) = false ->
          resp = created_response /\ response_status resp = 201).
Proof.
  intros env request w fd u s r Hres Hc Hi Hn.
  assert (Hpast : let_through env request w fd u s r).
  { split; [exact Hres|]. split; [exact Hc|]. rewrite Hn. lia. }
  assert (Hin : forall rest,
             In (InsertMessage (row_of env fd s r))
               (inserted env fd u s r ++ rest)%list).
  { intros rest. apply in_or_app. left. unfold inserted.
    apply in_or_app. right. right. left. reflexivity. }
  assert (Hcount : forall calls,
             recent_count env (posted w (stored env (row_of env fd s r)) calls)
               (profile_id s) = 20).
  { intros calls. rewrite recent_count_posted, Hn. reflexivity. }
  destruct (email_lookup env fd r) as [[|address others]|] eqn:Hl.
  - do 2 eexists.
    split; [exact (run_no_address env request w fd u s r Hpast Hi Hl)|].
    split; [discriminate|]. rewrite calls_between_posted.
    split; [apply Hin|]. split; [reflexivity|]. split; [apply Hcount|].
    discriminate.
  - destruct (Js.truthy (sendEmail_error env (mail_of w fd u s address))) eqn:He.
    + destruct (statusText_ok (sendEmail_error env (mail_of w fd u s address)))
        eqn:Hok.
      * do 2 eexists.
        split; [exact (run_provider_error env request w fd u s r Hpast
                         address others Hi Hl He Hok)|].
        split; [apply provider_error_is_not_rate_limit|].
        rewrite calls_between_posted.
        split; [apply Hin|]. split; [reflexivity|]. split; [apply Hcount|].
        intros a o Ha Hfine. injection Ha as -> ->. congruence.
      * do 2 eexists.
        split; [exact (run_unsendable_error env request w fd u s r Hpast
                         address others Hi Hl He Hok)|].
        split; [discriminate|].
        rewrite calls_between_posted.
        split; [apply Hin|]. split; [reflexivity|]. split; [apply Hcount|].
        intros a o Ha Hfine. injection Ha as -> ->. congruence.
    + do 2 eexists.
      split; [exact (run_created env request w fd u s r Hpast
                       address others Hi Hl He)|].
      split; [discriminate|]. rewrite calls_between_posted.
      split; [apply Hin|]. split; [reflexivity|]. split; [apply Hcount|].
      intros; split; reflexivity.
  - do 2 eexists.
    split; [exact (run_lookup_failed env request w fd u s r Hpast Hi Hl)|].
    split; [discriminate|]. rewrite calls_between_posted.
    split; [apply Hin|]. split; [reflexivity|]. split; [apply Hcount|].
    discriminate.
Qed.

Lemma nineteen_goes_through_witness :
  exists (resp : Response) (w' : World),
    run (action Scenario.env (Scenario.post_to "bob")) (Scenario.busy 19)
    = (Some resp, w') /\
    List.length (messages w') = 20%nat /\
    recent_count Scenario.env w' (profile_id Scenario.alice_profile) = 20 /\
    response_status resp = 201.
Proof.
  destruct (nineteen_goes_through Scenario.env (Scenario.post_to "bob")
              (Scenario.busy 19) (Scenario.form_to "bob") Scenario.alice
              Scenario.alice_profile Scenario.bob_profile)
    as (resp & w' & Hrun & _ & _ & Hrows & Hcount & Hcreated).
  - repeat split; reflexivity.
  - reflexivity.
  - reflexivity.
  - reflexivity.
  - exists resp, w'. split; [exact Hrun|].
    split; [rewrite Hrows; reflexivity|]. split; [exact Hcount|].
    apply (Hcreated "bob@example.org" []); reflexivity.
Defined.

(** ** Failure of the email provider *)

Lemma insert_in_inserted (env : Env) (fd : FormData) (u : User) (s r : Profile)
  (rest : list Event) :
  In (InsertMessage (row_of env fd s r)) (inserted env fd u s r ++ rest).
Proof.
  apply in_or_app. left. unfold inserted.
  apply in_or_app. right. right. left. reflexivity.
Qed.


Lemma lookup_call_is_no_send (fd : FormData) (r : Profile) (mail : Email) :
  email_lookup_call fd r <> SendEmail mail.
Proof. unfold email_lookup_call. destruct (Js.truthy (auth_id r)); discriminate. Qed.

Lemma no_send_before_lookup (env : Env) (fd : FormData) (u : User)
  (s r : Profile) (mail : Email) :
  ~ In (SendEmail mail) (inserted env fd u s r).
Proof.
  unfold inserted, counted, lookups. simpl.
  intuition discriminate.
Qed.

(** Where a [SendEmail] call can be in the calls of the delivery paths: only
    in the last position. *)
Lemma send_is_last (env : Env) (fd : FormData) (u : User) (s r : Profile)
  (mail : Email) (last : Event) :
  In (SendEmail mail) (inserted env fd u s r ++ [email_lookup_call fd r; last]) ->
  last = SendEmail mail.
Proof.
  intros Hin. apply in_app_or in Hin. destruct Hin as [Hin|Hin].
  - now apply no_send_before_lookup in Hin.
  - simpl in Hin. destruct Hin as [Hin|[Hin|[]]]; [|exact Hin].
    now apply lookup_call_is_no_send in Hin.
Qed.

Lemma send_is_second (env : Env) (fd : FormData) (u : User) (s r : Profile)
  (mail sent : Email) (last : Js.Error) :
  In (SendEmail mail)
    (inserted env fd u s r
     ++ [email_lookup_call fd r; SendEmail sent; ConsoleError last]) ->
  sent = mail.
Proof.
  intros Hin. apply in_app_or in Hin. destruct Hin as [Hin|Hin].
  - now apply no_send_before_lookup in Hin.
  - simpl in Hin. destruct Hin as [Hin|[Hin|[Hin|[]]]].
    + now apply lookup_call_is_no_send in Hin.
    + now injection Hin.
    + discriminate.
Qed.




(** ** Order of the steps after the rate limit *)

(** The claim of C6 read on a concrete run: alice, who has sent nothing yet,
    writes to bob.  The request passes validation and the rate limit, and
    the tenant settings are fetched before the message row is inserted, not
    after. *)
Lemma delivery_order_counterexample :
  passes_validation Scenario.env (Scenario.post_to "bob") = true /\
  recent_count Scenario.env (Scenario.busy 0)
    (profile_id Scenario.alice_profile) < 20 /\
  comes_before is_insert is_settings_fetch
    (calls_between (Scenario.busy 0)
       (snd (run (action Scenario.env (Scenario.post_to "bob"))
               (Scenario.busy 0)))) = false /\
  comes_before is_settings_fetch is_insert
    (calls_between (Scenario.busy 0)
       (snd (run (action Scenario.env (Scenario.post_to "bob"))
               (Scenario.busy 0)))) = true.
Proof.
  split; [reflexivity|]. split; [reflexivity|]. split; reflexivity.
Qed.

(** C6, amended. For every request that passes validation and the
    rate-limit check, the calls that follow the count query are, in this
    order: the fetch of the tenant settings, the insert of the message row,
    then (when the insert succeeds) the lookup of the recipient's email, by
    [auth_id] if the recipient profile has one and by username otherwise,
    then (when an address is found) the dispatch of the email rendered with
    those settings.  After the dispatch nothing but an error log can
    follow. *)
Theorem delivery_order :
  forall env request w fd u s r,
    let_through env request w fd u s r ->
    exists (resp : Response) (w' : World) (rest : list Event),
      run (action env request) w = (Some resp, w') /\
      calls_between w w'
      = (counted env fd u s
         ++ SelectTenantSettings :: InsertMessage (row_of env fd s r) :: rest)%list /\
      (insert_failure env = None ->
       exists rest' : list Event,
         rest = (if Js.truthy (auth_id r) then RpcEmailById (auth_id r)
                 else RpcEmailByUsername (to (data_of fd))) :: rest' /\
         (forall address others,
             email_lookup env fd r = Some (address :: others) ->
             exists tail : list Event,
               rest' = SendEmail (mail_of w fd u s address) :: tail /\
               Forall (fun c => match c with
                                | ConsoleError _ => True
                                | _ => False
                                end) tail)).
Proof.
  intros env request w fd u s r Hpast.
  assert (Hshape : forall rest,
             (inserted env fd u s r ++ rest
              = counted env fd u s
                ++ SelectTenantSettings :: InsertMessage (row_of env fd s r) :: rest)%list).
  { intros rest. unfold inserted. now rewrite <- app_assoc. }
  destruct (insert_failure env) as [e|] eqn:Hi.
  { do 3 eexists.
    split; [exact (run_insert_failed env request w fd u s r Hpast e Hi)|].
    rewrite calls_between_logged. split; [apply Hshape | discriminate]. }
  destruct (email_lookup env fd r) as [[|address others]|] eqn:Hl.
  - do 3 eexists.
    split; [exact (run_no_address env request w fd u s r Hpast Hi Hl)|].
    rewrite calls_between_posted. split; [apply Hshape|].
    intros _. eexists. split; [reflexivity | discriminate].
  - destruct (Js.truthy (sendEmail_error env (mail_of w fd u s address))) eqn:He.
    + destruct (statusText_ok (sendEmail_error env (mail_of w fd u s address)))
        eqn:Hok.
      * do 3 eexists.
        split; [exact (run_provider_error env request w fd u s r Hpast
                         address others Hi Hl He Hok)|].
        rewrite calls_between_posted. split; [apply Hshape|].
        intros _. eexists. split; [reflexivity|].
        intros a o Ha. injection Ha as -> ->.
        exists []. split; [reflexivity | constructor].
      * do 3 eexists.
        split; [exact (run_unsendable_error env request w fd u s r Hpast
                         address others Hi Hl He Hok)|].
        rewrite calls_between_posted. split; [apply Hshape|].
        intros _. eexists. split; [reflexivity|].
        intros a o Ha. injection Ha as -> ->.
        eexists. split; [reflexivity | repeat constructor].
    + do 3 eexists.
      split; [exact (run_created env request w fd u s r Hpast
                       address others Hi Hl He)|].
      rewrite calls_between_posted. split; [apply Hshape|].
      intros _. eexists. split; [reflexivity|].
      intros a o Ha. injection Ha as -> ->.
      exists []. split; [reflexivity | constructor].
  - do 3 eexists.
    split; [exact (run_lookup_failed env request w fd u s r Hpast Hi Hl)|].
    rewrite calls_between_posted. split; [apply Hshape|].
    intros _. eexists. split; [reflexivity | discriminate].
Qed.

Lemma delivery_order_witness :
  exists (resp : Response) (w' : World) (tail : list Event),
    run (action Scenario.env (Scenario.post_to "bob")) (Scenario.busy 2)
    = (Some resp, w') /\
    calls_between (Scenario.busy 2) w'
    = (counted Scenario.env (Scenario.form_to "bob") Scenario.alice
         Scenario.alice_profile
       ++ SelectTenantSettings
          :: InsertMessage (row_of Scenario.env (Scenario.form_to "bob")
                              Scenario.alice_profile Scenario.bob_profile)
          :: RpcEmailByUsername (Some "bob")
          :: SendEmail (mail_of (Scenario.busy 2) (Scenario.form_to "bob")
                          Scenario.alice Scenario.alice_profile
                          "bob@example.org")
          :: tail)%list.
Proof.
  destruct (delivery_order Scenario.env (Scenario.post_to "bob")
              (Scenario.busy 2) (Scenario.form_to "bob") Scenario.alice
              Scenario.alice_profile Scenario.bob_profile)
    as (resp & w' & rest & Hrun & Hcalls & Hrest).
  - repeat split; reflexivity.
  - destruct (Hrest eq_refl) as (rest' & -> & Hsend).
    destruct (Hsend "bob@example.org" [] eq_refl) as (tail & -> & _).
    exists resp, w', tail. split; [exact Hrun | exact Hcalls].
Defined.

(** * Further properties of the message handler *)

Lemma run_served (env : Env) (request : Request) (w : World)
  (resp : Response) (w' : World) :
  run (action env request) w = (Some resp, w') ->
  served env request w resp w'.
Proof.
  intros Hrun.
  destruct (action_served env request w) as (resp0 & w0 & Hrun0 & Hserved).
  rewrite Hrun in Hrun0. injection Hrun0 as <- <-. exact Hserved.
Qed.

Lemma validateRequest_rejects (request : Request) (user : option User)
  (data : MessageData) :
  Js.truthy_bool (valid (validateRequest request user data)) = false ->
  exists (st : Z) (txt : string),
    validateRequest request user data = invalid st txt /\
    (st = 400 \/ st = 401 \/ st = 405).
Proof.
  unfold validateRequest.
  destruct user as [u|]; [|intros _; do 2 eexists; split; [reflexivity | tauto]].
  destruct (negb (String.eqb (method request) "POST"));
    [intros _; do 2 eexists; split; [reflexivity | tauto]|].
  destruct (negb (Js.truthy (to data)));
    [intros _; do 2 eexists; split; [reflexivity | tauto]|].
  destruct (negb (Js.truthy (message data)));
    [intros _; do 2 eexists; split; [reflexivity | tauto]|].
  destruct (negb (Js.truthy (email u)));
    [intros _; do 2 eexists; split; [reflexivity | tauto]|].
  discriminate.
Qed.

(** What a run leaves behind: the old world with more calls in its trace,
    or that with the one row of a request the rate limit let through. *)
Lemma served_shape (env : Env) (request : Request) (w : World)
  (resp : Response) (w' : World) :
  served env request w resp w' ->
  (exists calls, w' = logged w calls) \/
  (exists fd u s r calls,
      let_through env request w fd u s r /\ insert_failure env = None /\
      w' = posted w (stored env (row_of env fd s r)) calls).
Proof.
  intros Hserved.
  destruct Hserved; try (left; eexists; reflexivity);
    right; do 5 eexists; (split; [eassumption|]); split;
    try eassumption; reflexivity.
Qed.

Lemma recent_count_logged (env : Env) (w : World) (calls : list Event) (id : Z) :
  recent_count env (logged w calls) id = recent_count env w id.
Proof. reflexivity. Qed.

(** X1. The handler answers every request, whatever the request, the
    session, the tables and the collaborators' answers, and the status of
    the answer is one of 201, 400, 401, 405, 429 and 500. *)
Theorem action_always_responds :
  forall env request w,
  exists (resp : Response) (w' : World),
    run (action env request) w = (Some resp, w') /\
    In (response_status resp) [201; 400; 401; 405; 429; 500].
Proof.
  intros env request w.
  destruct (action_served env request w) as (resp & w' & Hrun & Hserved).
  exists resp, w'. split; [exact Hrun|].
  destruct Hserved as [ | fd Hb Hv | | | | | | | | | | ];
    try solve [simpl; repeat (first [left; reflexivity | right])].
  destruct (validateRequest_rejects _ _ _ Hv) as (st & txt & -> & Hst).
  destruct Hst as [-> | [-> | ->]];
    simpl; repeat (first [left; reflexivity | right]).
Qed.

(** X2. A run never touches the profiles or the tenant settings, only
    appends to the trace of calls, and either leaves the messages table as
    it was or appends exactly one row: from the sender's profile id to the
    recipient's, with the submitted text and the tenant of the process
    environment. *)
Theorem action_frame :
  forall env request w resp w',
    run (action env request) w = (Some resp, w') ->
    profiles w' = profiles w /\
    tenant_settings w' = tenant_settings w /\
    (exists calls, trace w' = (trace w ++ calls)%list) /\
    (messages w' = messages w \/
     exists fd u s r,
       resolved env request w fd u s r /\
       messages w'
       = (messages w
          ++ [{| sender_id := profile_id s;
                 receiver_id := profile_id r;
                 message_text := formData_get "message" fd;
                 tenant_id := TENANT_ID env;
                 created_at := Date_now env + Z.of_N (insert_latency env) |}])%list).
Proof.
  intros env request w resp w' Hrun.
  destruct (served_shape _ _ _ _ _ (run_served _ _ _ _ _ Hrun))
    as [(calls & ->) | (fd & u & s & r & calls & Hpast & _ & ->)].
  - repeat split; [eexists; reflexivity | left; reflexivity].
  - repeat split; [eexists; reflexivity|].
    right. exists fd, u, s, r. split; [exact (proj1 Hpast) | reflexivity].
Qed.

Lemma action_frame_witness :
  exists (resp : Response) (w' : World),
    run (action Scenario.env (Scenario.post_to "bob")) (Scenario.busy 2)
    = (Some resp, w') /\
    profiles w' = profiles (Scenario.busy 2) /\
    tenant_settings w' = tenant_settings (Scenario.busy 2) /\
    List.length (messages w') = 3%nat.
Proof.
  pose (out := run (action Scenario.env (Scenario.post_to "bob"))
                 (Scenario.busy 2)).
  destruct (action_frame Scenario.env (Scenario.post_to "bob") (Scenario.busy 2)
              (match fst out with Some r => r | None => created_response end)
              (snd out) eq_refl)
    as (Hprofiles & Hsettings & _ & _).
  do 2 eexists. split; [reflexivity|].
  split; [exact Hprofiles|]. split; [exact Hsettings | reflexivity].
Defined.

(** X3. A request handled on its own, with no other request writing to the
    messages table between its count query and its insert, does not take a
    sender past the limit: for every profile id, the count over the
    trailing 24 hours after the run is at most the larger of the count
    before it and 20.  (The count and the insert are not one transaction;
    what two interleaved requests do is outside this statement.) *)
Theorem rate_limit_invariant :
  forall env request w resp w',
    run (action env request) w = (Some resp, w') ->
    forall id : Z,
      recent_count env w' id <= Z.max (recent_count env w id) 20.
Proof.
  intros env request w resp w' Hrun id.
  destruct (served_shape _ _ _ _ _ (run_served _ _ _ _ _ Hrun))
    as [(calls & ->) | (fd & u & s & r & calls & Hpast & _ & ->)].
  - rewrite recent_count_logged. lia.
  - destruct Hpast as (_ & _ & Hn).
    unfold recent_count in *. unfold posted. simpl messages.
    rewrite count_since_snoc.
    destruct (sent_since id (Date_now env - DAY) (stored env (row_of env fd s r)))
      eqn:Hsent; [|lia].
    unfold sent_since in Hsent. apply andb_prop in Hsent.
    destruct Hsent as [Hid _]. apply Z.eqb_eq in Hid. simpl in Hid.
    subst id. lia.
Qed.

Lemma rate_limit_invariant_witness :
  recent_count Scenario.env
    (snd (run (action Scenario.env (Scenario.post_to "bob")) (Scenario.busy 19)))
    1
  <= Z.max (recent_count Scenario.env (Scenario.busy 19) 1) 20.
Proof.
  pose (out := run (action Scenario.env (Scenario.post_to "bob"))
                 (Scenario.busy 19)).
  exact (rate_limit_invariant Scenario.env (Scenario.post_to "bob")
           (Scenario.busy 19)
           (match fst out with Some r => r | None => created_response end)
           (snd out) eq_refl 1).
Defined.

(** X4. A 201 answer means the whole send happened: the request passed
    validation and the rate limit, its row is in the messages table, the
    email was handed to the provider and the provider reported no error;
    the answer then carries the session headers and a null body. *)
Theorem created_means_stored_and_sent :
  forall env request w resp w',
    run (action env request) w = (Some resp, w') ->
    response_status resp = 201 ->
    exists fd u s r address,
      let_through env request w fd u s r /\
      messages w' = (messages w ++ [stored env (row_of env fd s r)])%list /\
      In (SendEmail (mail_of w fd u s address)) (calls_between w w') /\
      Js.truthy (sendEmail_error env (mail_of w fd u s address)) = false /\
      resp = created_response.
Proof.
  intros env request w resp w' Hrun Hst.
  destruct (run_served _ _ _ _ _ Hrun)
    as [ | fd Hb Hv | | | | | | | | |
       | fd u s r address others Hpast Hi Hl He ];
    try discriminate Hst.
  - destruct (validateRequest_rejects _ _ _ Hv) as (st & txt & Hshape & Hcode).
    rewrite Hshape in Hst. simpl in Hst. lia.
  - exists fd, u, s, r, address.
    split; [exact Hpast|]. split; [reflexivity|].
    rewrite calls_between_posted.
    split; [|split; [exact He | reflexivity]].
    apply in_or_app. right. right. left. reflexivity.
Qed.

Lemma created_means_stored_and_sent_witness :
  exists fd u s r address,
    let_through Scenario.env (Scenario.post_to "bob") (Scenario.busy 2) fd u s r /\
    In (SendEmail (mail_of (Scenario.busy 2) fd u s address))
      (calls_between (Scenario.busy 2)
         (snd (run (action Scenario.env (Scenario.post_to "bob"))
                 (Scenario.busy 2)))).
Proof.
  pose (out := run (action Scenario.env (Scenario.post_to "bob"))
                 (Scenario.busy 2)).
  destruct (created_means_stored_and_sent Scenario.env (Scenario.post_to "bob")
              (Scenario.busy 2)
              (match fst out with Some r => r | None => rate_limit_response end)
              (snd out) eq_refl eq_refl)
    as (fd & u & s & r & address & Hpast & _ & Hsent & _).
  exists fd, u, s, r, address. split; [exact Hpast | exact Hsent].
Defined.

(** X5. No email leaves without a stored message, and at most one leaves:
    in every run that calls the provider, the insert precedes that call, no
    other call of the run is a dispatch, nothing is inserted after it, and
    the messages table holds the inserted row. *)
Theorem email_only_after_insert :
  forall env request w resp w' mail,
    run (action env request) w = (Some resp, w') ->
    In (SendEmail mail) (calls_between w w') ->
    exists (row : MessageInsert) (front tail : list Event),
      calls_between w w' = (front ++ SendEmail mail :: tail)%list /\
      In (InsertMessage row) front /\
      (forall other, ~ In (SendEmail other) front) /\
      (forall other, ~ In (SendEmail other) tail) /\
      (forall later, ~ In (InsertMessage later) tail) /\
      messages w' = (messages w ++ [stored env row])%list.
Proof.
  intros env request w resp w' mail Hrun Hin.
  assert (Hfront : forall fd u s r other,
             ~ In (SendEmail other)
                 (inserted env fd u s r ++ [email_lookup_call fd r])).
  { intros fd u s r other H. apply in_app_or in H. destruct H as [H|H].
    - now apply no_send_before_lookup in H.
    - destruct H as [H|[]]. now apply lookup_call_is_no_send in H. }
  assert (Hsplit : forall fd u s r tail,
             (inserted env fd u s r
              ++ email_lookup_call fd r :: SendEmail mail :: tail
              = (inserted env fd u s r ++ [email_lookup_call fd r])
                ++ SendEmail mail :: tail)%list).
  { intros. now rewrite <- app_assoc. }
  destruct (run_served _ _ _ _ _ Hrun)
    as [ Hb | fd Hb Hv | fd u Hacc Hs | fd u s Hacc Hs Hr
       | fd u s r e Hres Hc | fd u s r Hres Hc Hn
       | fd u s r e Hpast Hi | fd u s r Hpast Hi Hl | fd u s r Hpast Hi Hl
       | fd u s r address others Hpast Hi Hl He Hok
       | fd u s r address others Hpast Hi Hl He Hok
       | fd u s r address others Hpast Hi Hl He ];
    rewrite ?calls_between_logged, ?calls_between_posted in *.
  - simpl in Hin. intuition discriminate.
  - simpl in Hin. intuition discriminate.
  - unfold lookups in Hin. simpl in Hin. intuition discriminate.
  - unfold lookups in Hin. simpl in Hin. intuition discriminate.
  - unfold counted, lookups in Hin. simpl in Hin. intuition discriminate.
  - unfold counted, lookups in Hin. simpl in Hin. intuition discriminate.
  - apply in_app_or in Hin. destruct Hin as [Hin|Hin].
    + now apply no_send_before_lookup in Hin.
    + simpl in Hin. intuition discriminate.
  - apply send_is_last in Hin. discriminate.
  - apply send_is_last in Hin. discriminate.
  - apply send_is_last in Hin. injection Hin as <-.
    exists (row_of env fd s r),
      (inserted env fd u s r ++ [email_lookup_call fd r])%list, [].
    split; [apply Hsplit|].
    split; [apply insert_in_inserted|]. split; [apply Hfront|].
    split; [intros other []|]. split; [intros later [] | reflexivity].
  - apply send_is_second in Hin. subst mail.
    exists (row_of env fd s r),
      (inserted env fd u s r ++ [email_lookup_call fd r])%list,
      [ConsoleError (Js.TypeError "Invalid statusText")].
    split; [apply Hsplit|].
    split; [apply insert_in_inserted|]. split; [apply Hfront|].
    split; [intros other [H|[]]; discriminate|].
    split; [intros later [H|[]]; discriminate | reflexivity].
  - apply send_is_last in Hin. injection Hin as <-.
    exists (row_of env fd s r),
      (inserted env fd u s r ++ [email_lookup_call fd r])%list, [].
    split; [apply Hsplit|].
    split; [apply insert_in_inserted|]. split; [apply Hfront|].
    split; [intros other []|]. split; [intros later [] | reflexivity].
Qed.

Lemma email_only_after_insert_witness :
  exists (row : MessageInsert) (front : list Event),
    In (InsertMessage row) front /\
    messages (snd (run (action Scenario.env (Scenario.post_to "bob"))
                     (Scenario.busy 2)))
    = (messages (Scenario.busy 2) ++ [stored Scenario.env row])%list.
Proof.
  pose (out := run (action Scenario.env (Scenario.post_to "bob"))
                 (Scenario.busy 2)).
  destruct (email_only_after_insert Scenario.env (Scenario.post_to "bob")
              (Scenario.busy 2)
              (match fst out with Some r => r | None => rate_limit_response end)
              (snd out)
              (mail_of (Scenario.busy 2) (Scenario.form_to "bob")
                 Scenario.alice Scenario.alice_profile "bob@example.org")
              eq_refl)
    as (row & front & tail & _ & Hins & _ & _ & _ & Hrows).
  - vm_compute. do 7 right. left. reflexivity.
  - exists row, front. split; [exact Hins | exact Hrows].
Defined.

(** X6. A request whose body cannot be read as form data is answered 500
    before anything else happens: the session is not looked up, so even an
    unauthenticated caller gets 500 and not 401; the only call made is the
    error log, and no table changes. *)
Theorem unparsed_body_is_500 :
  forall env request w,
    body request = None ->
    exists (resp : Response) (w' : World),
      run (action env request) w = (Some resp, w') /\
      response_status resp = 500 /\
      response_statusText resp = "Error sending message" /\
      calls_between w w' = [ConsoleError (Js.TypeError "request.formData")] /\
      messages w' = messages w.
Proof.
  intros env request w Hb. do 2 eexists.
  split; [exact (run_unparsed env request w Hb)|].
  repeat split. apply calls_between_logged.
Qed.

Lemma unparsed_body_is_500_witness :
  exists (resp : Response) (w' : World),
    run (action Faults.anonymous Faults.garbled) (Scenario.busy 1)
    = (Some resp, w') /\
    response_status resp = 500 /\
    response_statusText resp = "Error sending message" /\
    calls_between (Scenario.busy 1) w'
    = [ConsoleError (Js.TypeError "request.formData")] /\
    messages w' = messages (Scenario.busy 1).
Proof.
  apply (unparsed_body_is_500 Faults.anonymous Faults.garbled (Scenario.busy 1)).
  reflexivity.
Defined.

(** ** What the answer depends on *)

Lemma profile_rows_same (w w2 : World) (v : option string) :
  profiles w2 = profiles w -> profile_rows w2 v = profile_rows w v.
Proof. unfold profile_rows. now intros ->. Qed.

Lemma mail_of_same (w w2 : World) (fd : FormData) (u : User) (s : Profile)
  (address : string) :
  tenant_settings w2 = tenant_settings w ->
  mail_of w2 fd u s address = mail_of w fd u s address.
Proof. unfold mail_of. now intros ->. Qed.

Lemma resolved_same (env : Env) (request : Request) (w w2 : World)
  (fd : FormData) (u : User) (s r : Profile) :
  profiles w2 = profiles w ->
  resolved env request w fd u s r -> resolved env request w2 fd u s r.
Proof.
  intros Hp (Hacc & Hs & Hr). split; [exact Hacc|].
  now rewrite !(profile_rows_same w w2 _ Hp).
Qed.

Section SameCounts.

Variables (env : Env) (request : Request) (w w2 : World).
Hypothesis Hprofiles : profiles w2 = profiles w.
Hypothesis Hsettings : tenant_settings w2 = tenant_settings w.
Hypothesis Hcounts :
  forall u s,
    session_user env = Some u ->
    Js.at0 (profile_rows w (Some (user_username u))) = Some s ->
    recent_count env w2 (profile_id s) = recent_count env w (profile_id s).

Lemma let_through_same (fd : FormData) (u : User) (s r : Profile) :
  let_through env request w fd u s r -> let_through env request w2 fd u s r.
Proof.
  intros (Hres & Hc & Hn).
  split; [exact (resolved_same env request w w2 fd u s r Hprofiles Hres)|].
  split; [exact Hc|].
  destruct Hres as ((_ & Hu & _) & Hs & _).
  now rewrite (Hcounts u s Hu Hs).
Qed.

Lemma same_response :
  fst (run (action env request) w2) = fst (run (action env request) w).
Proof.
  destruct (action_served env request w) as (resp & w' & Hrun & Hserved).
  rewrite Hrun. simpl.
  destruct Hserved
    as [ Hb | fd Hb Hv | fd u Hacc Hs | fd u s Hacc Hs Hr
       | fd u s r e Hres Hc | fd u s r Hres Hc Hn
       | fd u s r e Hpast Hi | fd u s r Hpast Hi Hl | fd u s r Hpast Hi Hl
       | fd u s r address others Hpast Hi Hl He Hok
       | fd u s r address others Hpast Hi Hl He Hok
       | fd u s r address others Hpast Hi Hl He ].
  - now rewrite (run_unparsed env request w2 Hb).
  - now rewrite (run_invalid env request w2 fd Hb Hv).
  - rewrite <- (profile_rows_same w w2 _ Hprofiles) in Hs.
    now rewrite (run_no_sender env request w2 fd u Hacc Hs).
  - rewrite <- (profile_rows_same w w2 _ Hprofiles) in Hs.
    rewrite <- (profile_rows_same w w2 _ Hprofiles) in Hr.
    now rewrite (run_no_recipient env request w2 fd u Hacc s Hs Hr).
  - pose proof (resolved_same env request w w2 fd u s r Hprofiles Hres) as Hres2.
    now rewrite (run_count_failed env request w2 fd u s r Hres2 e Hc).
  - pose proof (resolved_same env request w w2 fd u s r Hprofiles Hres) as Hres2.
    destruct Hres as ((_ & Hu & _) & Hs & _).
    rewrite <- (Hcounts u s Hu Hs) in Hn.
    now rewrite (run_rate_limited env request w2 fd u s r Hres2 Hc Hn).
  - apply let_through_same in Hpast.
    now rewrite (run_insert_failed env request w2 fd u s r Hpast e Hi).
  - apply let_through_same in Hpast.
    now rewrite (run_lookup_failed env request w2 fd u s r Hpast Hi Hl).
  - apply let_through_same in Hpast.
    now rewrite (run_no_address env request w2 fd u s r Hpast Hi Hl).
  - apply let_through_same in Hpast.
    rewrite <- (mail_of_same w w2 fd u s address Hsettings) in He, Hok.
    rewrite (run_provider_error env request w2 fd u s r Hpast
               address others Hi Hl He Hok).
    simpl. now rewrite (mail_of_same w w2 fd u s address Hsettings).
  - apply let_through_same in Hpast.
    rewrite <- (mail_of_same w w2 fd u s address Hsettings) in He, Hok.
    now rewrite (run_unsendable_error env request w2 fd u s r Hpast
                   address others Hi Hl He Hok).
  - apply let_through_same in Hpast.
    rewrite <- (mail_of_same w w2 fd u s address Hsettings) in He.
    now rewrite (run_created env request w2 fd u s r Hpast
                   address others Hi Hl He).
Qed.

End SameCounts.

(** X7. The answer depends on the messages table only through the number
    of messages the sender has sent in the trailing 24 hours: two worlds
    with the same profiles and tenant settings in which the sender's count
    agrees get the same response to the same request. *)
Theorem response_depends_on_recent_count :
  forall env request w w2,
    profiles w2 = profiles w ->
    tenant_settings w2 = tenant_settings w ->
    (forall u s,
        session_user env = Some u ->
        Js.at0 (profile_rows w (Some (user_username u))) = Some s ->
        recent_count env w2 (profile_id s) = recent_count env w (profile_id s)) ->
    fst (run (action env request) w2) = fst (run (action env request) w).
Proof. exact same_response. Qed.

Lemma count_since_insert (from since : Z) (l1 l2 : list Message) (m : Message) :
  count_since from since (l1 ++ m :: l2)
  = count_since from since (l1 ++ l2)
    + (if sent_since from since m then 1 else 0).
Proof.
  unfold count_since. rewrite !filter_app, !length_app. simpl.
  destruct (sent_since from since m); simpl; lia.
Qed.

(** X8. Only the trailing 24 hours count, and the bound is strict: a
    message created 24 hours before the handler's clock reading or earlier,
    wherever it sits in the table and whoever sent it, does not change the
    response to any request. *)
Theorem old_messages_do_not_count :
  forall env request w l1 l2 m,
    created_at m <= Date_now env - DAY ->
    fst (run (action env request) (with_messages w (l1 ++ m :: l2)))
    = fst (run (action env request) (with_messages w (l1 ++ l2))).
Proof.
  intros env request w l1 l2 m Hold.
  apply same_response; try reflexivity.
  intros u s _ _. unfold recent_count, with_messages. simpl messages.
  rewrite count_since_insert.
  replace (sent_since (profile_id s) (Date_now env - DAY) m) with false; [lia|].
  symmetry. unfold sent_since. apply andb_false_intro2. now apply Z.ltb_ge.
Qed.

Lemma old_messages_do_not_count_witness :
  fst (run (action Scenario.env (Scenario.post_to "bob"))
         (with_messages (Scenario.busy 0)
            (repeat Scenario.earlier 19 ++ Faults.day_old :: [])))
  = fst (run (action Scenario.env (Scenario.post_to "bob"))
           (with_messages (Scenario.busy 0) (repeat Scenario.earlier 19 ++ []))).
Proof.
  apply (old_messages_do_not_count Scenario.env (Scenario.post_to "bob")
           (Scenario.busy 0) (repeat Scenario.earlier 19) [] Faults.day_old).
  vm_compute. discriminate.
Defined.

(** X9. The limit is per sender: a message sent by any profile other than
    the one the session's username resolves to does not change the
    response. *)
Theorem other_senders_do_not_count :
  forall env request w l1 l2 m,
    (forall u s,
        session_user env = Some u ->
        Js.at0 (profile_rows w (Some (user_username u))) = Some s ->
        sender_id m <> profile_id s) ->
    fst (run (action env request) (with_messages w (l1 ++ m :: l2)))
    = fst (run (action env request) (with_messages w (l1 ++ l2))).
Proof.
  intros env request w l1 l2 m Hother.
  apply same_response; try reflexivity.
  intros u s Hu Hs. unfold recent_count, with_messages. simpl messages.
  rewrite count_since_insert.
  replace (sent_since (profile_id s) (Date_now env - DAY) m) with false; [lia|].
  symmetry. unfold sent_since. apply andb_false_intro1.
  apply Z.eqb_neq. exact (Hother u s Hu Hs).
Qed.

Lemma other_senders_do_not_count_witness :
  fst (run (action Scenario.env (Scenario.post_to "bob"))
         (with_messages (Scenario.busy 0)
            (repeat Scenario.earlier 19 ++ Faults.from_bob :: [])))
  = fst (run (action Scenario.env (Scenario.post_to "bob"))
           (with_messages (Scenario.busy 0) (repeat Scenario.earlier 19 ++ []))).
Proof.
  apply (other_senders_do_not_count Scenario.env (Scenario.post_to "bob")
           (Scenario.busy 0) (repeat Scenario.earlier 19) [] Faults.from_bob).
  intros u s Hu Hs. injection Hu as <-. vm_compute in Hs.
  injection Hs as <-. discriminate.
Defined.

Lemma response_depends_on_recent_count_witness :
  fst (run (action Scenario.env (Scenario.post_to "bob"))
         (with_messages (Scenario.busy 3)
            (Faults.from_bob :: Faults.day_old :: repeat Scenario.earlier 3)))
  = fst (run (action Scenario.env (Scenario.post_to "bob")) (Scenario.busy 3)).
Proof.
  apply (response_depends_on_recent_count Scenario.env (Scenario.post_to "bob")
           (Scenario.busy 3)
           (with_messages (Scenario.busy 3)
              (Faults.from_bob :: Faults.day_old :: repeat Scenario.earlier 3))).
  - reflexivity.
  - reflexivity.
  - intros u s Hu Hs. injection Hu as <-. vm_compute in Hs.
    injection Hs as <-. reflexivity.
Defined.

(** ** Errors *)







(** Every request the rate limit lets through whose insert succeeds leaves
    its row behind, whatever happens to the email. *)
Lemma run_posts (env : Env) (request : Request) (w : World)
  (fd : FormData) (u : User) (s r : Profile) :
  let_through env request w fd u s r ->
  insert_failure env = None ->
  exists resp calls,
    run (action env request) w
    = (Some resp, posted w (stored env (row_of env fd s r)) calls).
Proof.
  intros Hpast Hi.
  destruct (email_lookup env fd r) as [[|address others]|] eqn:Hl.
  - do 2 eexists. exact (run_no_address env request w fd u s r Hpast Hi Hl).
  - destruct (Js.truthy (sendEmail_error env (mail_of w fd u s address))) eqn:He.
    + destruct (statusText_ok (sendEmail_error env (mail_of w fd u s address)))
        eqn:Hok.
      * do 2 eexists.
        exact (run_provider_error env request w fd u s r Hpast address others
                 Hi Hl He Hok).
      * do 2 eexists.
        exact (run_unsendable_error env request w fd u s r Hpast address others
                 Hi Hl He Hok).
    + do 2 eexists.
      exact (run_created env request w fd u s r Hpast address others Hi Hl He).
  - do 2 eexists. exact (run_lookup_failed env request w fd u s r Hpast Hi Hl).
Qed.

(** X11. The twentieth message goes through and the twenty-first is
    refused: when a sender with 19 messages in the window sends one more and
    the row is stored, the same request made again at the same clock reading
    is answered 429 with the spam-protection text and stores nothing. *)
Theorem twenty_first_is_refused :
  forall env request w fd u s r,
    resolved env request w fd u s r ->
    count_failure env = None ->
    insert_failure env = None ->
    recent_count env w (profile_id s) = 19 ->
    exists resp1 w1 w2,
      run (action env request) w = (Some resp1, w1) /\
      List.length (messages w1) = S (List.length (messages w)) /\
      run (action env request) w1 = (Some rate_limit_response, w2) /\
      messages w2 = messages w1.
Proof.
  intros env request w fd u s r Hres Hc Hi Hn.
  assert (Hpast : let_through env request w fd u s r).
  { split; [exact Hres|]. split; [exact Hc|]. rewrite Hn. lia. }
  destruct (run_posts env request w fd u s r Hpast Hi) as (resp1 & calls & Hrun1).
  set (w1 := posted w (stored env (row_of env fd s r)) calls) in *.
  assert (Hres1 : resolved env request w1 fd u s r) by exact Hres.
  assert (Hn1 : 20 <= recent_count env w1 (profile_id s)).
  { unfold w1. rewrite recent_count_posted, Hn. lia. }
  exists resp1, w1, (logged w1 (counted env fd u s)).
  split; [exact Hrun1|]. split.
  { unfold w1, posted. simpl. rewrite length_app. simpl. lia. }
  split; [|reflexivity].
  exact (run_rate_limited env request w1 fd u s r Hres1 Hc Hn1).
Qed.

Lemma twenty_first_is_refused_witness :
  exists resp1 w1 w2,
    run (action Scenario.env (Scenario.post_to "bob")) (Scenario.busy 19)
    = (Some resp1, w1) /\
    List.length (messages w1) = 20%nat /\
    run (action Scenario.env (Scenario.post_to "bob")) w1
    = (Some rate_limit_response, w2) /\
    messages w2 = messages w1.
Proof.
  apply (twenty_first_is_refused Scenario.env (Scenario.post_to "bob")
           (Scenario.busy 19) (Scenario.form_to "bob") Scenario.alice
           Scenario.alice_profile Scenario.bob_profile).
  - repeat split; reflexivity.
  - reflexivity.
  - reflexivity.
  - reflexivity.
Defined.

(** X12. [validateRequest] answers [valid] exactly when there is a user,
    the method is POST, [to] and [message] are non-empty strings and the
    user has a non-empty email; in particular an empty [to] or [message] is
    rejected like a missing one. *)
Theorem validateRequest_valid_iff :
  forall request user data,
    Js.truthy_bool (valid (validateRequest request user data)) = true <->
    exists u tov msg mail,
      user = Some u /\ method request = "POST" /\
      to data = Some tov /\ tov <> "" /\
      message data = Some msg /\ msg <> "" /\
      email u = Some mail /\ mail <> "".
Proof.
  assert (Htruthy : forall v,
             Js.truthy v = true <-> exists s0, v = Some s0 /\ s0 <> "").
  { intros [s0|]; simpl.
    - rewrite truthy_string_nonempty. split.
      + intros H. now exists s0.
      + intros (s1 & Heq & H). now injection Heq as ->.
    - split; [discriminate | intros (s1 & Heq & _); discriminate]. }
  intros request user data. unfold validateRequest. split.
  - destruct user as [u|]; [|discriminate].
    destruct (String.eqb_spec (method request) "POST") as [Hm|]; [|discriminate].
    simpl negb.
    destruct (Js.truthy (to data)) eqn:Ht; [|discriminate].
    destruct (Js.truthy (message data)) eqn:Hmsg; [|discriminate].
    destruct (Js.truthy (email u)) eqn:He; [|discriminate].
    intros _.
    apply Htruthy in Ht, Hmsg, He.
    destruct Ht as (tov & ? & ?), Hmsg as (msg & ? & ?), He as (mail & ? & ?).
    exists u, tov, msg, mail. repeat split; assumption.
  - intros (u & tov & msg & mail & -> & Hm & Ht & Htne & Hmsg & Hmne & He & Hene).
    rewrite Hm. simpl.
    rewrite (proj2 (Htruthy (to data))) by (now exists tov).
    rewrite (proj2 (Htruthy (message data))) by (now exists msg).
    rewrite (proj2 (Htruthy (email u))) by (now exists mail).
    reflexivity.
Qed.

(** X13. A stored setting that is a non-empty string is returned as it is:
    each field of the settings is the stored value whenever that is
    non-empty, independently of the other columns, and a row with five
    non-empty columns is returned whole. *)
Theorem getTenantSettings_keeps_stored :
  forall (w : World) (row : TenantSettingsRow),
    single (tenant_settings w) = Some row ->
    exists s : TenantSettings,
      fst (getTenantSettings w) = Value s /\
      (forall v, site_name row = Some v -> v <> "" -> siteName s = v) /\
      (forall v, site_url row = Some v -> v <> "" -> siteUrl s = v) /\
      (forall v, message_sign_off row = Some v -> v <> "" ->
                 messageSignOff s = v) /\
      (forall v, email_from row = Some v -> v <> "" -> emailFrom s = v) /\
      (forall v, site_image row = Some v -> v <> "" -> siteImage s = v).
Proof.
  intros w row Hrow. rewrite getTenantSettings_run. simpl. rewrite Hrow.
  eexists. split; [reflexivity|].
  unfold tenantSettingsOf. simpl.
  repeat split; intros v -> Hv; simpl;
    apply truthy_string_nonempty in Hv; rewrite Hv; reflexivity.
Qed.

Lemma getTenantSettings_keeps_stored_witness :
  exists s : TenantSettings,
    fst (getTenantSettings Faults.kamp_world) = Value s /\
    siteName s = "Project Kamp" /\
    emailFrom s = "hello@projectkamp.com".
Proof.
  destruct (getTenantSettings_keeps_stored Faults.kamp_world Faults.full_row eq_refl)
    as (s & Hrun & Hname & _ & _ & Hfrom & _).
  exists s. split; [exact Hrun|]. split.
  - apply Hname; [reflexivity | discriminate].
  - apply Hfrom; [reflexivity | discriminate].
Defined.

Lemma validateRequest_valid_iff_witness :
  Js.truthy_bool
    (valid (validateRequest (Scenario.post_to "bob") (Some Scenario.alice)
              (data_of (Scenario.form_to "bob")))) = true /\
  Js.truthy_bool
    (valid (validateRequest (Scenario.post_to "") (Some Scenario.alice)
              (data_of (Scenario.form_to "")))) <> true.
Proof.
  split.
  - apply (proj2 (validateRequest_valid_iff (Scenario.post_to "bob")
                    (Some Scenario.alice) (data_of (Scenario.form_to "bob")))).
    exists Scenario.alice, "bob", "Can I visit your workspace?",
      "alice@example.org".
    repeat split; try reflexivity; discriminate.
  - intros H.
    apply (proj1 (validateRequest_valid_iff (Scenario.post_to "")
                    (Some Scenario.alice) (data_of (Scenario.form_to "")))) in H.
    destruct H as (u & tov & msg & mail & _ & _ & Hto & Hne & _).
    vm_compute in Hto. injection Hto as <-. now apply Hne.
Defined.

(** X14. A database error is answered 500 and leaves no trace in the data:
    when the count query fails, or when the insert fails for a request the
    rate limit let through, the response is 500 with the database error as
    body, the messages table is unchanged and neither the email lookup nor
    the provider is called. *)
Theorem database_errors_are_500 :
  forall env request w fd u s r e,
    resolved env request w fd u s r ->
    (count_failure env = Some e \/
     (count_failure env = None /\ recent_count env w (profile_id s) < 20 /\
      insert_failure env = Some e)) ->
    exists w',
      run (action env request) w
      = (Some (error_response (Js.PostgrestError e)), w') /\
      messages w' = messages w /\
      (forall c, In c (calls_between w w') ->
                 match c with
                 | RpcEmailById _ | RpcEmailByUsername _ | SendEmail _ => False
                 | _ => True
                 end).
Proof.
  intros env request w fd u s r e Hres [Hc | (Hc & Hn & Hi)].
  - eexists.
    split; [exact (run_count_failed env request w fd u s r Hres e Hc)|].
    split; [reflexivity|].
    rewrite calls_between_logged. apply Forall_forall.
    unfold counted, lookups. simpl. repeat constructor.
  - assert (Hpast : let_through env request w fd u s r)
      by (split; [exact Hres | split; assumption]).
    eexists.
    split; [exact (run_insert_failed env request w fd u s r Hpast e Hi)|].
    split; [reflexivity|].
    rewrite calls_between_logged. apply Forall_forall.
    unfold inserted, counted, lookups. simpl. repeat constructor.
Qed.

Lemma database_errors_are_500_witness :
  exists w',
    run (action Faults.insert_down (Scenario.post_to "bob")) (Scenario.busy 4)
    = (Some (error_response (Js.PostgrestError "row-level security")), w') /\
    messages w' = messages (Scenario.busy 4).
Proof.
  destruct (database_errors_are_500 Faults.insert_down (Scenario.post_to "bob")
              (Scenario.busy 4) (Scenario.form_to "bob") Scenario.alice
              Scenario.alice_profile Scenario.bob_profile "row-level security")
    as (w' & Hrun & Hsame & _).
  - repeat split; reflexivity.
  - right. repeat split; reflexivity.
  - exists w'. split; [exact Hrun | exact Hsame].
Defined.

(** X15. When the recipient's email cannot be found after the insert (the
    lookup yields no data, or no row), the answer is 500, the provider is
    never called, and the message row stays in the table: the sender's
    count has gone up by one although nothing was delivered. *)
Theorem missing_address_leaves_message :
  forall env request w fd u s r,
    let_through env request w fd u s r ->
    insert_failure env = None ->
    email_lookup env fd r = None \/ email_lookup env fd r = Some [] ->
    exists resp w',
      run (action env request) w = (Some resp, w') /\
      response_status resp = 500 /\
      messages w' = (messages w ++ [stored env (row_of env fd s r)])%list /\
      recent_count env w' (profile_id s) = recent_count env w (profile_id s) + 1 /\
      (forall mail, ~ In (SendEmail mail) (calls_between w w')).
Proof.
  intros env request w fd u s r Hpast Hi [Hl|Hl].
  - do 2 eexists.
    split; [exact (run_lookup_failed env request w fd u s r Hpast Hi Hl)|].
    split; [reflexivity|]. split; [reflexivity|].
    split; [apply recent_count_posted|].
    intros mail Hin. rewrite calls_between_posted in Hin.
    apply send_is_last in Hin. discriminate.
  - do 2 eexists.
    split; [exact (run_no_address env request w fd u s r Hpast Hi Hl)|].
    split; [reflexivity|]. split; [reflexivity|].
    split; [apply recent_count_posted|].
    intros mail Hin. rewrite calls_between_posted in Hin.
    apply send_is_last in Hin. discriminate.
Qed.

Lemma missing_address_leaves_message_witness :
  exists resp w',
    run (action Faults.no_address (Scenario.post_to "bob")) (Scenario.busy 4)
    = (Some resp, w') /\
    response_status resp = 500 /\
    List.length (messages w') = 5%nat.
Proof.
  destruct (missing_address_leaves_message Faults.no_address
              (Scenario.post_to "bob") (Scenario.busy 4)
              (Scenario.form_to "bob") Scenario.alice
              Scenario.alice_profile Scenario.bob_profile)
    as (resp & w' & Hrun & Hst & Hrows & _).
  - repeat split; reflexivity.
  - reflexivity.
  - right. reflexivity.
  - exists resp, w'. split; [exact Hrun|]. split; [exact Hst|].
    rewrite Hrows. reflexivity.
Defined.

(** * Further properties of the research update form *)

Module ResearchUpdateFormMore.

Import ResearchUpdateForm.
Local Open Scope nat_scope.

(** ** Removing an existing image *)

Lemma keep_all_after {A : Type} (l : list A) (k j : nat) :
  j < k ->
  map snd
    (filter (fun p => negb (Nat.eqb (fst p) j)) (combine (seq k (List.length l)) l))
  = l.
Proof.
  revert k. induction l as [|x l IH]; intros k Hlt; simpl; [reflexivity|].
  destruct (Nat.eqb_spec k j) as [->|_]; [lia|]. simpl.
  f_equal. apply IH. lia.
Qed.

Lemma remove_at_filter_from {A : Type} (l : list A) (index k : nat) :
  map snd
    (filter (fun p => negb (Nat.eqb (fst p) (k + index)))
       (combine (seq k (List.length l)) l))
  = remove_at index l.
Proof.
  revert index k. induction l as [|x l IH]; intros index k; simpl.
  - destruct index; reflexivity.
  - destruct index as [|i].
    + rewrite Nat.add_0_r, Nat.eqb_refl. simpl. apply keep_all_after. lia.
    + destruct (Nat.eqb_spec k (k + S i)) as [Heq|_]; [lia|]. simpl.
      f_equal. rewrite <- (IH i (S k)).
      replace (S k + i) with (k + S i) by lia. reflexivity.
Qed.

Lemma remove_at_is_filter {A : Type} (index : nat) (l : list A) :
  remove_at index l = filter_other_index index l.
Proof. symmetry. exact (remove_at_filter_from l index 0). Qed.

Lemma remove_at_nth {A : Type} (l : list A) (i j : nat) :
  nth_error (remove_at i l) j = nth_error l (if j <? i then j else S j).
Proof.
  revert i j. induction l as [|x l IH]; intros i j.
  - simpl. destruct i, (j <? _), j; reflexivity.
  - destruct i as [|i]; [reflexivity|].
    destruct j as [|j]; [reflexivity|].
    simpl remove_at. simpl nth_error at 1. rewrite IH.
    change (S j <? S i) with (j <? i).
    destruct (j <? i); reflexivity.
Qed.

Lemma remove_at_length {A : Type} (l : list A) (i : nat) :
  i < List.length l -> S (List.length (remove_at i l)) = List.length l.
Proof.
  revert i. induction l as [|x l IH]; intros i Hlt; simpl in *; [lia|].
  destruct i as [|i]; [reflexivity|]. simpl. f_equal. apply IH. lia.
Qed.

Lemma remove_at_out_of_range {A : Type} (l : list A) (i : nat) :
  List.length l <= i -> remove_at i l = l.
Proof.
  revert i. induction l as [|x l IH]; intros i Hle; simpl in *.
  - destruct i; reflexivity.
  - destruct i as [|i]; [lia|]. simpl. f_equal. apply IH. lia.
Qed.

(** X16. [removeExistingImage] keeps exactly the existing images at the
    other positions, in order: with an index inside the list there is one
    image fewer and the ones after it move down by one; with an index past
    the end nothing changes.  The saving flag and the error message of the
    component are not touched. *)
Theorem removeExistingImage_removes_one :
  forall (index : nat) (st : State) (imgs : list string),
    existingImages (initialValues st) = Some imgs ->
    exists rest : list string,
      existingImages (initialValues (removeExistingImage index st)) = Some rest /\
      rest = filter_other_index index imgs /\
      (forall j, nth_error rest j
                 = nth_error imgs (if j <? index then j else S j)) /\
      (index < List.length imgs -> S (List.length rest) = List.length imgs) /\
      (List.length imgs <= index -> rest = imgs) /\
      isSaving (removeExistingImage index st) = isSaving st /\
      saveErrorMessage (removeExistingImage index st) = saveErrorMessage st.
Proof.
  intros index st imgs Himgs. exists (remove_at index imgs).
  split; [simpl; now rewrite Himgs|].
  split; [apply remove_at_is_filter|].
  split; [intros j; apply remove_at_nth|].
  split; [apply remove_at_length|].
  split; [apply remove_at_out_of_range|].
  repeat split.
Qed.

Lemma removeExistingImage_removes_one_witness :
  existingImages (initialValues (removeExistingImage 1 gallery_state))
  = Some ["front.png"; "back.png"] /\
  existingImages (initialValues (removeExistingImage 3 gallery_state))
  = Some ["front.png"; "side.png"; "back.png"].
Proof.
  split.
  - destruct (removeExistingImage_removes_one 1 gallery_state
                ["front.png"; "side.png"; "back.png"] eq_refl)
      as (rest & Hrest & -> & _).
    exact Hrest.
  - destruct (removeExistingImage_removes_one 3 gallery_state
                ["front.png"; "side.png"; "back.png"] eq_refl)
      as (rest & Hrest & _ & _ & _ & Hout & _).
    rewrite Hrest, Hout; [reflexivity | simpl; lia].
Defined.

(** ** Image inputs *)

(** X17. The number of image inputs offered is always between 1 and 10;
    choosing one more image adds one input until the cap of 10 is reached,
    and an input left empty never counts, wherever it is in the list. *)
Theorem image_inputs_grow_to_ten :
  (forall values,
      1 <= numberOfImageInputsAvailable values <= 10) /\
  (forall v before after f,
      numberOfImageInputsAvailable
        (Some (setImages (Some (before ++ Some f :: after)%list) v))
      = Nat.min
          (S (numberOfImageInputsAvailable
                (Some (setImages (Some (before ++ after)%list) v))))
          10) /\
  (forall v before after,
      numberOfImageInputsAvailable
        (Some (setImages (Some (before ++ None :: after)%list) v))
      = numberOfImageInputsAvailable
          (Some (setImages (Some (before ++ after)%list) v))).
Proof.
  split; [|split].
  - intros values. unfold numberOfImageInputsAvailable.
    destruct (Js.opt_chain values images); lia.
  - intros v before after f. unfold numberOfImageInputsAvailable. simpl.
    rewrite !filter_app, !length_app. simpl. lia.
  - intros v before after. unfold numberOfImageInputsAvailable. simpl.
    rewrite !filter_app, !length_app. simpl. reflexivity.
Qed.



(** ** The flags over the life of the form *)

Lemma step_keeps_navigation_flag (props : Props) (m m' : Mounted) :
  step props m m' ->
  intentionalNavigation (ui m) = true -> intentionalNavigation (ui m') = true.
Proof.
  intros Hstep Hflag.
  destruct Hstep as [m formData isDraft | m before after c answer Hsplit
                    | m b | m index | m loaded]; simpl; try exact Hflag.
  - unfold onSubmit. destruct (isSaving (ui m)); [exact Hflag | reflexivity].
  - destruct answer; simpl; exact Hflag.
Qed.

Lemma steps_keep_navigation_flag (props : Props) (m m' : Mounted) :
  steps props m m' ->
  intentionalNavigation (ui m) = true -> intentionalNavigation (ui m') = true.
Proof.
  induction 1 as [m | m m' m'' _ IH Hstep]; intros Hflag; [exact Hflag|].
  exact (step_keeps_navigation_flag props m' m'' Hstep (IH Hflag)).
Qed.

(** Saving implies the navigation flag: both are set together and only the
    saving flag is ever cleared. *)
Lemma saving_implies_navigation (props : Props) (m : Mounted) :
  reachable props m ->
  isSaving (ui m) = true -> intentionalNavigation (ui m) = true.
Proof.
  induction 1 as [|m m' _ IH Hstep]; [discriminate|].
  destruct Hstep as [m formData isDraft | m before after c answer Hsplit
                    | m b | m index | m loaded]; simpl; try exact IH.
  - unfold onSubmit.
    destruct (isSaving (ui m)); simpl; intros _; [now apply IH | reflexivity].
  - destruct answer; simpl; [exact IH | discriminate].
Qed.

(** X19. Once the user has submitted, the unsaved-changes warning never
    comes back: in every state the form reaches after a submit, whatever
    happens next and even if the save is rejected, [hasChanges] is false
    for a dirty form too. *)
Theorem unsaved_warning_stays_off :
  forall props m formData isDraft m',
    reachable props m ->
    steps props (after_submit props m formData isDraft) m' ->
    forall dirty submitSucceeded,
      hasChanges dirty submitSucceeded (ui m') = false.
Proof.
  intros props m formData isDraft m' Hreach Hsteps dirty submitSucceeded.
  assert (Hflag : intentionalNavigation (ui m') = true).
  { apply (steps_keep_navigation_flag props _ m' Hsteps).
    unfold after_submit, onSubmit. simpl.
    destruct (isSaving (ui m)) eqn:Hs; [|reflexivity].
    exact (saving_implies_navigation props m Hreach Hs). }
  unfold hasChanges. rewrite Hflag. simpl.
  now rewrite andb_false_r.
Qed.

Lemma unsaved_warning_stays_off_witness :
  hasChanges true false (ui failed_once) = false.
Proof.
  apply (unsaved_warning_stays_off some_props mount draft_form false failed_once).
  - apply reach_mount.
  - apply (steps_more some_props _ (after_submit some_props mount draft_form false));
      [apply steps_none|].
    apply (step_settle some_props
             (after_submit some_props mount draft_form false) [] []
             {| call_research := 7%Z; call_update := None;
                call_formData := draft_form; call_isDraft := false |}
             (Rejected "Network error")).
    reflexivity.
Defined.

Lemma locked_is_kept (props : Props) (m m' : Mounted) :
  steps props m m' ->
  isSaving (ui m) = true -> in_flight m = [] ->
  isSaving (ui m') = true /\ in_flight m' = [].
Proof.
  induction 1 as [m | m m' m'' _ IH Hstep]; intros Hs He; [now split|].
  destruct (IH Hs He) as [Hs' He']. clear IH.
  destruct Hstep as [m' formData isDraft | m' before after c answer Hsplit
                    | m' b | m' index | m' loaded]; simpl.
  - rewrite (ResearchUpdateFormFacts.onSubmit_saving props _ formData isDraft Hs').
    simpl. now split.
  - rewrite He' in Hsplit. destruct before; discriminate.
  - now split.
  - now split.
  - now split.
Qed.

(** X20. A successful save locks the form: once the one call in flight has
    resolved, the saving flag stays set and no step the form can take,
    further submits included, ever starts another upsert call. *)
Theorem saved_form_stays_locked :
  forall props m c result m',
    reachable props m ->
    in_flight m = [c] ->
    steps props (after_settle props m [] [] c (Resolved result)) m' ->
    in_flight m' = [] /\ isSaving (ui m') = true /\
    forall formData isDraft,
      onSubmit props (ui m') formData isDraft = (ui m', None).
Proof.
  intros props m c result m' Hreach Hone Hsteps.
  destruct (ResearchUpdateFormFacts.reachable_guarded props m Hreach)
    as [_ Hflag].
  assert (Hs : isSaving (ui m) = true) by (apply Hflag; rewrite Hone; discriminate).
  destruct (locked_is_kept props _ m' Hsteps) as [Hs' He']; [exact Hs | reflexivity|].
  split; [exact He'|]. split; [exact Hs'|].
  intros formData isDraft.
  now apply ResearchUpdateFormFacts.onSubmit_saving.
Qed.

Lemma saved_form_stays_locked_witness :
  onSubmit some_props
    (ui (after_settle some_props submitted_once [] []
           {| call_research := 7%Z; call_update := None;
              call_formData := draft_form; call_isDraft := false |}
           (Resolved (Some 21%Z))))
    draft_form true
  = (ui (after_settle some_props submitted_once [] []
           {| call_research := 7%Z; call_update := None;
              call_formData := draft_form; call_isDraft := false |}
           (Resolved (Some 21%Z))),
     None).
Proof.
  apply (saved_form_stays_locked some_props submitted_once
           {| call_research := 7%Z; call_update := None;
              call_formData := draft_form; call_isDraft := false |}
           (Some 21%Z)).
  - apply (reach_step some_props mount); [apply reach_mount | apply step_submit].
  - reflexivity.
  - apply steps_none.
Defined.

(** X21. A rejected save can be retried: the rejection shows the error
    message and clears the saving flag, and the next submit starts a call
    for the same research with the data then in the form, sets the flag
    again and clears the message.  The update id of the call is the
    [researchUpdate?.id || null] of the component: the id of the update
    being edited, except that an id of 0, like no update, is sent as
    null. *)
Theorem failed_save_allows_retry :
  forall props st isDraft msg formData isDraft',
    let st1 := fst (onSubmit_settled props st isDraft (Rejected msg)) in
    saveErrorMessage st1 = Some msg /\
    isSaving st1 = false /\
    snd (onSubmit_settled props st isDraft (Rejected msg)) = [LoggerError msg] /\
    exists st2 call,
      onSubmit props st1 formData isDraft' = (st2, Some call) /\
      isSaving st2 = true /\ saveErrorMessage st2 = None /\
      call_research call = research_id props /\
      call_formData call = formData /\
      call_isDraft call = isDraft' /\
      (forall i, researchUpdate_id props = Some i -> i <> 0%Z ->
                 call_update call = Some i) /\
      (researchUpdate_id props = Some 0%Z -> call_update call = None) /\
      (researchUpdate_id props = None -> call_update call = None).
Proof.
  intros props st isDraft msg formData isDraft' st1.
  repeat split. do 2 eexists. split; [reflexivity|].
  repeat split; simpl; unfold id.
  - intros i -> Hi. destruct (Z.eqb_spec i 0); [contradiction | reflexivity].
  - intros ->. reflexivity.
  - intros ->. reflexivity.
Qed.

Lemma failed_save_allows_retry_witness :
  exists st2 call,
    onSubmit edit_props
      (fst (onSubmit_settled edit_props gallery_state false
              (Rejected "Network error")))
      draft_form true = (st2, Some call) /\
    call_update call = Some 13%Z.
Proof.
  destruct (failed_save_allows_retry edit_props gallery_state false
              "Network error" draft_form true)
    as (_ & _ & _ & st2 & call & Hrun & _ & _ & _ & _ & _ & Hid & _).
  exists st2, call. split; [exact Hrun|].
  apply Hid; [reflexivity | discriminate].
Defined.

(** X22. While an upsert call is in flight the delete button is disabled,
    in every state the form can reach. *)
Theorem delete_disabled_while_saving :
  forall props m,
    reachable props m ->
    in_flight m <> [] ->
    forall submitting, deleteDisabled (ui m) submitting = true.
Proof.
  intros props m Hreach Hbusy submitting.
  destruct (ResearchUpdateFormFacts.reachable_guarded props m Hreach)
    as [_ Hflag].
  unfold deleteDisabled. now rewrite (Hflag Hbusy).
Qed.

Lemma delete_disabled_while_saving_witness :
  deleteDisabled (ui submitted_once) false = true.
Proof.
  apply (delete_disabled_while_saving some_props submitted_once).
  - apply (reach_step some_props mount); [apply reach_mount | apply step_submit].
  - discriminate.
Defined.

(** X23. The delete dialog leaves the form alone: opening it and cancelling
    gives back the state it was opened from, and so does confirming, which
    in edit mode starts the deletion of exactly this update of this
    research.  The page of the research is loaded only once that deletion
    has resolved; when it is rejected nothing is loaded.  Without an update
    to delete, confirming does nothing at all. *)
Theorem delete_dialog_round_trip :
  forall props st,
    showDeleteModal st = false ->
    setShowDeleteModal false (setShowDeleteModal true st) = st /\
    (forall i,
        researchUpdate_id props = Some i ->
        handleDelete props (setShowDeleteModal true st)
        = (st, [DeleteUpdate (research_id props) i])) /\
    handleDelete_settled props true
    = [LocationAssign ("/research/" ++ research_slug props)] /\
    handleDelete_settled props false = [] /\
    (researchUpdate_id props = None ->
     handleDelete props st = (st, [])).
Proof.
  intros props st Hclosed.
  assert (Hback : setShowDeleteModal false (setShowDeleteModal true st) = st).
  { destruct st. simpl in Hclosed. subst. reflexivity. }
  split; [exact Hback|]. split; [|split; [reflexivity | split; [reflexivity|]]].
  - intros i Hid. unfold handleDelete. rewrite Hid, Hback. reflexivity.
  - intros Hid. unfold handleDelete. now rewrite Hid.
Qed.

Lemma delete_dialog_round_trip_witness :
  handleDelete edit_props (setShowDeleteModal true gallery_state)
  = (gallery_state, [DeleteUpdate 7%Z 13%Z]).
Proof.
  apply (proj1 (proj2 (delete_dialog_round_trip edit_props gallery_state eq_refl))).
  reflexivity.
Defined.

(** ** The sidebar overview *)

Lemma filter_Boolean_app {A : Type} (l1 l2 : list (option A)) :
  filter_Boolean (l1 ++ l2) = (filter_Boolean l1 ++ filter_Boolean l2)%list.
Proof.
  induction l1 as [|[x|] l1 IH]; simpl; [reflexivity | | exact IH].
  now rewrite IH.
Qed.

Lemma filter_Boolean_objects {A B : Type} (f : A -> B) (l : list A) :
  filter_Boolean (map (fun x => Some (f x)) l) = map f l.
Proof. induction l as [|x l IH]; simpl; [reflexivity | now rewrite IH]. Qed.

Lemma getResearchUpdates_entries (updates : list ResearchUpdate)
  (isCreating : bool) (researchTitle : string) :
  getResearchUpdates updates isCreating researchTitle
  = (map overview_entry (filter (fun u => negb (update_deleted u)) updates)
     ++ if isCreating then [draft_entry researchTitle] else [])%list.
Proof.
  unfold getResearchUpdates.
  rewrite filter_Boolean_app, filter_Boolean_objects.
  destruct isCreating; reflexivity.
Qed.

(** X24. The sidebar lists exactly the updates that are not soft-deleted,
    each with its title, draft flag and id, and, only while a new update is
    being created, one more entry for it: a draft with the title typed so
    far, a null slug and no id.  Nothing else is ever listed. *)
Theorem getResearchUpdates_lists_exactly :
  forall updates isCreating researchTitle e,
    In e (getResearchUpdates updates isCreating researchTitle) <->
    (exists u, In u updates /\ update_deleted u = false /\
               e = {| entry_title := update_title u;
                      entry_isDraft := update_isDraft u;
                      entry_slug := Some (update_id u);
                      entry_id := Some (update_id u) |}) \/
    (isCreating = true /\
     e = {| entry_title := researchTitle; entry_isDraft := true;
            entry_slug := None; entry_id := None |}).
Proof.
  intros updates isCreating researchTitle e.
  rewrite getResearchUpdates_entries, in_app_iff, in_map_iff. split.
  - intros [(u & <- & Hin) | Hdraft].
    + apply filter_In in Hin. destruct Hin as [Hin Hkept].
      left. exists u. apply negb_true_iff in Hkept. now repeat split.
    + right. destruct isCreating; [|contradiction].
      destruct Hdraft as [<-|[]]. now split.
  - intros [(u & Hin & Hkept & ->) | (-> & ->)].
    + left. exists u. split; [reflexivity|].
      apply filter_In. split; [exact Hin|]. now rewrite Hkept.
    + right. left. reflexivity.
Qed.

Lemma getResearchUpdates_lists_exactly_witness :
  In (overview_entry first_update)
    (getResearchUpdates [withdrawn_update; first_update] false "") /\
  ~ In (overview_entry withdrawn_update)
      (getResearchUpdates [withdrawn_update; first_update] false "").
Proof.
  split.
  - apply (proj2 (getResearchUpdates_lists_exactly
                    [withdrawn_update; first_update] false ""
                    (overview_entry first_update))).
    left. exists first_update. repeat split. right. left. reflexivity.
  - intros Hin.
    apply (proj1 (getResearchUpdates_lists_exactly
                    [withdrawn_update; first_update] false ""
                    (overview_entry withdrawn_update))) in Hin.
    destruct Hin as [(u & [<-|[<-|[]]] & Hkept & Heq) | (Hc & _)];
      discriminate.
Defined.

(** X25. A soft-deleted update is as good as absent: marking an update
    deleted removes its entry and nothing else, so the sidebar is the one
    of the list without that update, in the same order. *)
Theorem deleted_update_is_absent :
  forall before after u isCreating researchTitle,
    update_deleted u = true ->
    getResearchUpdates (before ++ u :: after) isCreating researchTitle
    = getResearchUpdates (before ++ after) isCreating researchTitle.
Proof.
  intros before after u isCreating researchTitle Hdel.
  rewrite !getResearchUpdates_entries, !filter_app. simpl.
  now rewrite Hdel.
Qed.

Lemma deleted_update_is_absent_witness :
  getResearchUpdates ([first_update] ++ withdrawn_update :: [gallery_update])
    true "New update"
  = getResearchUpdates ([first_update] ++ [gallery_update]) true "New update".
Proof.
  apply (deleted_update_is_absent [first_update] [gallery_update]
           withdrawn_update true "New update").
  reflexivity.
Defined.

(** X26. The sidebar keeps the order of the updates and puts the update
    being created last: the entries are those of the kept updates in list
    order, so their number is the number of updates not deleted, plus one
    while creating. *)
Theorem getResearchUpdates_order_and_length :
  forall updates isCreating researchTitle,
    List.length (getResearchUpdates updates isCreating researchTitle)
    = List.length (filter (fun u => negb (update_deleted u)) updates)
      + (if isCreating then 1 else 0) /\
    filter_Boolean (map entry_id (getResearchUpdates updates isCreating researchTitle))
    = map update_id (filter (fun u => negb (update_deleted u)) updates) /\
    (isCreating = true ->
     last (getResearchUpdates updates isCreating researchTitle)
       (draft_entry "") = draft_entry researchTitle).
Proof.
  intros updates isCreating researchTitle.
  rewrite getResearchUpdates_entries. split; [|split].
  - rewrite length_app, length_map. destruct isCreating; reflexivity.
  - rewrite map_app, filter_Boolean_app, map_map. simpl.
    rewrite (filter_Boolean_objects update_id).
    destruct isCreating; simpl; now rewrite app_nil_r.
  - intros ->. apply last_last.
Qed.

Lemma getResearchUpdates_order_and_length_witness :
  last (getResearchUpdates [first_update; withdrawn_update; gallery_update]
          true "Wiring")
    (draft_entry "")
  = draft_entry "Wiring".
Proof.
  apply (getResearchUpdates_order_and_length
           [first_update; withdrawn_update; gallery_update] true "Wiring").
  reflexivity.
Defined.

End ResearchUpdateFormMore.

(** * The email that is dispatched *)

Lemma sent_mail_inv (env : Env) (request : Request) (w : World)
  (resp : Response) (w' : World) (mail : Email) :
  run (action env request) w = (Some resp, w') ->
  In (SendEmail mail) (calls_between w w') ->
  exists fd u s r address others,
    let_through env request w fd u s r /\
    email_lookup env fd r = Some (address :: others) /\
    mail = mail_of w fd u s address.
Proof.
  intros Hrun Hin.
  destruct (run_served _ _ _ _ _ Hrun)
    as [ Hb | fd Hb Hv | fd u Hacc Hs | fd u s Hacc Hs Hr
       | fd u s r e Hres Hc | fd u s r Hres Hc Hn
       | fd u s r e Hpast Hi | fd u s r Hpast Hi Hl | fd u s r Hpast Hi Hl
       | fd u s r address others Hpast Hi Hl He Hok
       | fd u s r address others Hpast Hi Hl He Hok
       | fd u s r address others Hpast Hi Hl He ];
    rewrite ?calls_between_logged, ?calls_between_posted in Hin.
  - simpl in Hin. intuition discriminate.
  - simpl in Hin. intuition discriminate.
  - unfold lookups in Hin. simpl in Hin. intuition discriminate.
  - unfold lookups in Hin. simpl in Hin. intuition discriminate.
  - unfold counted, lookups in Hin. simpl in Hin. intuition discriminate.
  - unfold counted, lookups in Hin. simpl in Hin. intuition discriminate.
  - apply in_app_or in Hin. destruct Hin as [Hin|Hin].
    + now apply no_send_before_lookup in Hin.
    + simpl in Hin. intuition discriminate.
  - apply send_is_last in Hin. discriminate.
  - apply send_is_last in Hin. discriminate.
  - apply send_is_last in Hin. injection Hin as <-.
    exists fd, u, s, r, address, others.
    split; [exact Hpast | split; [exact Hl | reflexivity]].
  - apply send_is_second in Hin. subst mail.
    exists fd, u, s, r, address, others.
    split; [exact Hpast | split; [exact Hl | reflexivity]].
  - apply send_is_last in Hin. injection Hin as <-.
    exists fd, u, s, r, address, others.
    split; [exact Hpast | split; [exact Hl | reflexivity]].
Qed.

Lemma first_row_has_username (w : World) (name : string) (s : Profile) :
  Js.at0 (profile_rows w (Some name)) = Some s ->
  username s = name /\ In s (profiles w).
Proof.
  unfold profile_rows.
  destruct (filter _ (profiles w)) as [|p rest] eqn:Hrows; [discriminate|].
  intros H. injection H as <-.
  assert (Hin : In p (filter (fun q => eq_text (username q) (Some name))
                        (profiles w))) by (rewrite Hrows; now left).
  apply filter_In in Hin. destruct Hin as [Hin Hname].
  split; [now apply String.eqb_eq | exact Hin].
Qed.

(** X27. Every email the handler hands to the provider goes to the first
    address the lookup returned, comes from a non-empty sender address,
    carries the submitted text and recipient username and the session
    user's email, and names the sender by the username of the session, in
    the template and at the head of the subject line. *)
Theorem dispatched_email_contents :
  forall env request w resp w' mail,
    run (action env request) w = (Some resp, w') ->
    In (SendEmail mail) (calls_between w w') ->
    exists fd u r others,
      body request = Some fd /\ session_user env = Some u /\
      email_lookup env fd r = Some (email_recipient mail :: others) /\
      email_sender mail <> "" /\
      text (emailTemplate mail) = formData_get "message" fd /\
      receiverName (emailTemplate mail) = formData_get "to" fd /\
      messengerEmailAddress (emailTemplate mail) = email u /\
      messengerUsername (emailTemplate mail) = user_username u /\
      subject mail
      = user_username u ++ " sent you a message via "
        ++ t_siteName (settings (emailTemplate mail)) ++ "!".
Proof.
  intros env request w resp w' mail Hrun Hin.
  destruct (sent_mail_inv env request w resp w' mail Hrun Hin)
    as (fd & u & s & r & address & others & Hpast & Hl & ->).
  destruct Hpast as (((Hb & Hu & _) & Hs & _) & _).
  destruct (first_row_has_username w _ s Hs) as [Hname _].
  exists fd, u, r, others.
  split; [exact Hb|]. split; [exact Hu|]. split; [exact Hl|].
  split; [apply or_else_nonempty; discriminate|].
  unfold mail_of. simpl. rewrite Hname. repeat split.
Qed.

Lemma dispatched_email_contents_witness :
  exists fd u r others,
    body (Scenario.post_to "bob") = Some fd /\
    session_user Scenario.env = Some u /\
    email_lookup Scenario.env fd r = Some ("bob@example.org" :: others) /\
    user_username u = "alice".
Proof.
  pose (out := run (action Scenario.env (Scenario.post_to "bob"))
                 (Scenario.busy 2)).
  destruct (dispatched_email_contents Scenario.env (Scenario.post_to "bob")
              (Scenario.busy 2)
              (match fst out with Some r => r | None => rate_limit_response end)
              (snd out)
              (mail_of (Scenario.busy 2) (Scenario.form_to "bob")
                 Scenario.alice Scenario.alice_profile "bob@example.org")
              eq_refl)
    as (fd & u & r & others & Hb & Hu & Hl & _ & _ & _ & _ & Hname & _).
  - vm_compute. do 7 right. left. reflexivity.
  - exists fd, u, r, others.
    split; [exact Hb|]. split; [exact Hu|]. split; [exact Hl|].
    symmetry. exact Hname.
Defined.
